(** * PsychroMinder: the measurement pipeline

    A shallow embedding of the psychrometric calculator
    (utils/psychrometry: [getSaturationVaporPressure],
    [calculateHumidity], [calculateDewPoint]), of the extraction adapter
    (services/geminiService: [analyzeHygrometer]), of the review card
    (components/ResultCard), of the uploader (components/ImageUploader),
    of the image viewer (components/ZoomableImage) and of the
    application shell (App), followed by the properties proved about
    them.

    JavaScript numbers are IEEE 754 binary64 values; they are modelled
    by Rocq's primitive floats, whose operations are specified by
    [SpecFloat].  The host functions the code calls but does not define
    ([Math.exp], [Math.log], [parseFloat], [JSON.parse],
    [JSON.stringify]) are fields of a record the definitions take as a
    parameter; a reference host implements them so that the model can be
    run.  A component is modelled by its state, its event handlers as
    functions on that state, and its effect as the function applied
    after every state update the effect depends on. *)

From Stdlib Require Import ZArith List String Ascii Bool Lia DecimalString.
From Stdlib Require Import Floats.
From Stdlib Require DecimalN.
Import ListNotations.

Set Warnings "-inexact-float,-register-all".
Local Open Scope float_scope.

(** ** JavaScript numbers *)

Module JS.

Definition number := float.

(** [x > y]: false as soon as one side is NaN. *)
Definition gt (x y : number) : bool := y <? x.

Definition isNaN (x : number) : bool := is_nan x.

(** [Math.max] and [Math.min] of two arguments: NaN if either is NaN,
    and +0 is larger than -0. *)
Definition Math_max (x y : number) : number :=
  if is_nan x || is_nan y then nan
  else if x <? y then y
  else if y <? x then x
  else if get_sign x then y else x.

Definition Math_min (x y : number) : number :=
  if is_nan x || is_nan y then nan
  else if x <? y then x
  else if y <? x then y
  else if get_sign x then x else y.

Definition Math_abs (x : number) : number := abs x.

(** The number nearest to an integer (exact below 2^53). *)
Definition of_Z (z : Z) : number :=
  SF2Prim (binary_normalize prec emax z 0 false).

(** The integer [n] for which [n / 10] is closest to [m * 2^e], the
    larger one on a tie (Number.prototype.toFixed with one fraction
    digit). *)
Definition tenths (m : positive) (e : Z) : Z :=
  match e with
  | Zneg p => ((20 * Zpos m + 2 ^ Zpos p) / 2 ^ (Zpos p + 1))%Z
  | _ => (10 * Zpos m * 2 ^ e)%Z
  end.

(** The number nearest to the decimal numeral [n / 10], signed by [s]:
    what [parseFloat] reads from the numeral [toFixed(1)] prints. *)
Definition of_tenths (s : bool) (n : Z) : number :=
  match n with
  | Zpos p =>
    SF2Prim (SF64div (S754_finite s p 0) (S754_finite false 10 0))
  | _ => if s then neg_zero else zero
  end.

(** [parseFloat(x.toFixed(1))].  [toFixed] prints NaN and the
    infinities by name and a magnitude of 1e21 or more in the shortest
    round-trip notation, all of which [parseFloat] reads back
    unchanged; any other value is printed as the nearest multiple of one
    tenth, with a minus sign when [x < 0], and read back as the nearest
    number. *)
Definition toFixed1_parseFloat (x : number) : number :=
  match Prim2SF x with
  | S754_nan => x
  | S754_infinity _ => x
  | S754_zero _ => zero
  | S754_finite s m e =>
    if 1e21 <=? abs x then x else of_tenths s (tenths m e)
  end.

(** [Math.exp] and [Math.log] are implementation-approximated; ECMA-262
    only fixes their values at the special arguments below. *)
Record Math := {
  Math_exp : number -> number;
  Math_log : number -> number;
  Math_exp_nan : Math_exp nan = nan;
  Math_exp_pinf : Math_exp infinity = infinity;
  Math_exp_ninf : Math_exp neg_infinity = zero;
  Math_exp_zero : forall z, is_zero z = true -> Math_exp z = one;
  Math_log_nan : Math_log nan = nan;
  Math_log_neg : forall x, (x <? zero) = true -> Math_log x = nan;
  Math_log_zero : forall z, is_zero z = true -> Math_log z = neg_infinity;
  Math_log_one : Math_log one = zero;
  Math_log_pinf : Math_log infinity = infinity
}.

End JS.

(** ** A reference implementation of [Math.exp] and [Math.log]

    Argument reduction by a multiple of ln 2 followed by a truncated
    series, in binary64 arithmetic throughout.  It serves to run the
    model on concrete readings. *)

Module RefMath.

Definition ln2_hi : float := 0.693147180369123816490.
Definition ln2_lo : float := 1.90821492927058770002e-10.
Definition inv_ln2 : float := 1.44269504088896338700.
Definition sqrt_half : float := 0.70710678118654752440.

(** Truncation of a finite number towards zero. *)
Definition float_to_Z (x : float) : Z :=
  match Prim2SF x with
  | S754_finite s m e =>
    let v := match e with
             | Zneg p => (Zpos m / 2 ^ Zpos p)%Z
             | _ => (Zpos m * 2 ^ e)%Z
             end in
    if s then (- v)%Z else v
  | _ => 0%Z
  end.

(** [1 + r/1 * (1 + r/2 * (... (1 + r/n)))], the Taylor polynomial of
    [exp r] of degree [n]. *)
Fixpoint exp_series (r : float) (n : nat) (acc : float) : float :=
  match n with
  | O => acc
  | S n' => exp_series r n' (1 + r / JS.of_Z (Z.of_nat n) * acc)
  end.

Definition exp (x : float) : float :=
  match Prim2SF x with
  | S754_nan => nan
  | S754_infinity false => infinity
  | S754_infinity true => zero
  | S754_zero _ => one
  | S754_finite _ _ _ =>
    if 710 <? x then infinity
    else if x <? -746 then zero
    else
      let k := float_to_Z (x * inv_ln2 + (if x <? 0 then -0.5 else 0.5)) in
      let kf := JS.of_Z k in
      let r := (x - kf * ln2_hi) - kf * ln2_lo in
      Z.ldexp (exp_series r 14 1) k
  end.

(** [1/(2n+1) + s2 * (1/(2n+3) + ...)], the series of [atanh s / s]. *)
Fixpoint atanh_series (s2 : float) (n : nat) (k : Z) : float :=
  match n with
  | O => 1 / JS.of_Z k
  | S n' => 1 / JS.of_Z k + s2 * atanh_series s2 n' (k + 2)
  end.

Definition log (x : float) : float :=
  match Prim2SF x with
  | S754_nan => nan
  | S754_zero _ => neg_infinity
  | S754_infinity false => infinity
  | S754_infinity true => nan
  | S754_finite true _ _ => nan
  | S754_finite false _ _ =>
    let (m, e) := Z.frexp x in
    let (m, e) := if m <? sqrt_half then (2 * m, (e - 1)%Z) else (m, e) in
    let s := (m - 1) / (m + 1) in
    let ef := JS.of_Z e in
    ef * ln2_hi + (ef * ln2_lo + 2 * s * atanh_series (s * s) 11 1)
  end.

End RefMath.

(** ** utils/psychrometry *)

Module Psychrometry.
Import JS.

Section Calculator.
Variable M : Math.

Definition getSaturationVaporPressure (temp : number) : number :=
  6.112 * Math_exp M ((17.67 * temp) / (temp + 243.5)).

(** The relative humidity before clamping and rounding. *)
Definition rawHumidity (dryTemp wetTemp : number) : number :=
  let p := 1013.25 in
  let A := 0.0007947 in
  let esWet := getSaturationVaporPressure wetTemp in
  let esDry := getSaturationVaporPressure dryTemp in
  let e := esWet - A * p * (dryTemp - wetTemp) in
  (e / esDry) * 100.

(** The sanity check on [wetTemp > dryTemp] has an empty body in the
    source, so it leaves no trace here. *)
Definition calculateHumidity (dryTemp wetTemp : number) : number :=
  let rh := rawHumidity dryTemp wetTemp in
  let rh := Math_max 0 (Math_min 100 rh) in
  toFixed1_parseFloat rh.

Definition calculateDewPoint (temp rh : number) : number :=
  let a := 17.27 in
  let b := 237.7 in
  let alpha := ((a * temp) / (b + temp)) + Math_log M (rh / 100.0) in
  (b * alpha) / (a - alpha).

End Calculator.

End Psychrometry.

(** ** JavaScript values, exceptions and the host *)

Module Value.

(** The values [JSON.parse] can return, and [undefined]. *)
Inductive jsval :=
| JUndefined
| JNull
| JBool (b : bool)
| JNum (n : JS.number)
| JStr (s : string)
| JArr (items : list jsval)
| JObj (fields : list (string * jsval)).

(** A thrown [Error] object: its constructor's name and its message. *)
Record js_error := { err_name : string; message : string }.

Definition Error (msg : string) : js_error :=
  {| err_name := "Error"; message := msg |}.
Definition TypeError (msg : string) : js_error :=
  {| err_name := "TypeError"; message := msg |}.

(** The outcome of evaluating code that may throw. *)
Inductive completion (A : Type) :=
| Normal (a : A)
| Throw (e : js_error).
Arguments Normal {A} a.
Arguments Throw {A} e.

Definition bind {A B} (c : completion A) (k : A -> completion B)
  : completion B :=
  match c with
  | Normal a => k a
  | Throw e => Throw e
  end.

(** ToBoolean. *)
Definition truthy (v : jsval) : bool :=
  match v with
  | JUndefined | JNull => false
  | JBool b => b
  | JNum n => negb (is_nan n || is_zero n)
  | JStr s => negb (String.eqb s "")
  | JArr _ | JObj _ => true
  end.

Fixpoint lookup (k : string) (fields : list (string * jsval))
  : option jsval :=
  match fields with
  | [] => None
  | (k', v) :: rest => if String.eqb k k' then Some v else lookup k rest
  end.

(** [v.k] for the property names the code reads ([isPsychrometer],
    [dryTemp], [wetTemp], [length]): a TypeError on [null] and
    [undefined], the own property of an object, the length of an array
    or a string, and [undefined] otherwise. *)
Definition get (v : jsval) (k : string) : completion jsval :=
  match v with
  | JUndefined | JNull =>
    Throw (TypeError ("Cannot read properties of null or undefined: " ++ k))
  | JObj fields =>
    Normal (match lookup k fields with Some x => x | None => JUndefined end)
  | JArr items =>
    Normal (if String.eqb k "length"
            then JNum (JS.of_Z (Z.of_nat (List.length items)))
            else JUndefined)
  | JStr s =>
    Normal (if String.eqb k "length"
            then JNum (JS.of_Z (Z.of_nat (String.length s)))
            else JUndefined)
  | JBool _ | JNum _ => Normal JUndefined
  end.

(** The functions of the host environment that the code calls.
    [JSON.parse] either returns a value or throws a SyntaxError; the one
    text whose parse the properties below depend on is fixed by a law.
    [localStorage.setItem key value] either stores the value or throws
    (a QuotaExceededError when the origin's quota does not hold it). *)
Record Host := {
  math :> JS.Math;
  parseFloat : string -> JS.number;
  JSON_parse : string -> completion jsval;
  JSON_stringify : jsval -> string;
  localStorage_setItem : string -> string -> completion unit;
  JSON_parse_null : JSON_parse "null" = Normal JNull
}.

End Value.

Declare Scope completion_scope.
Delimit Scope completion_scope with completion.
Notation "x <- c ;; k" := (Value.bind c (fun x => k))
  (at level 61, c at next level, right associativity) : completion_scope.

(** ** types.ts *)

Module Types.
Import JS Value.

Record PsychrometricData := {
  dryTemp : number;
  wetTemp : number;
  isPsychrometer : bool;
  confidence : option number
}.

(** [CalculationResult extends PsychrometricData]. *)
Record CalculationResult := {
  measured : PsychrometricData;
  relativeHumidity : number;
  dewPoint : option number
}.

Record TrainingExample := {
  id : string;
  timestamp : Z;
  imageUrl : string;
  correctedDry : number;
  correctedWet : number
}.

Inductive AppState := IDLE | ANALYZING | SUCCESS | ERROR.

(** The object a [TrainingExample] is at run time, as [JSON.stringify]
    receives it. *)
Definition encodeExample (ex : TrainingExample) : jsval :=
  JObj [ ("id", JStr (id ex));
         ("timestamp", JNum (of_Z (timestamp ex)));
         ("imageUrl", JStr (imageUrl ex));
         ("correctedDry", JNum (correctedDry ex));
         ("correctedWet", JNum (correctedWet ex)) ]%string.

(** The reading held by a response that conforms to the response schema
    (a boolean and two numbers). *)
Definition asPsychrometricData (v : jsval) : option PsychrometricData :=
  match v with
  | JObj fields =>
    match lookup "dryTemp" fields, lookup "wetTemp" fields,
          lookup "isPsychrometer" fields with
    | Some (JNum d), Some (JNum w), Some (JBool b) =>
      Some {| dryTemp := d; wetTemp := w; isPsychrometer := b;
              confidence := match lookup "confidence" fields with
                            | Some (JNum c) => Some c
                            | _ => None
                            end |}
    | _, _, _ => None
    end
  | _ => None
  end.

End Types.

(** ** services/geminiService *)

Module GeminiService.
Import JS Value Types.
Local Open Scope string_scope.
Local Open Scope completion_scope.

(** What [await ai.models.generateContent(...)] comes back with: a
    rejection, or a response whose [text] may be undefined.  Assembling
    the request (the prompt, at most one exemplar, the target image)
    cannot throw on well-typed arguments and does not influence how the
    response is handled, so the model starts from the oracle's outcome. *)
Inductive OracleOutcome :=
| Rejected (e : js_error)
| Responded (text : option string).

Definition NOT_A_PSYCHROMETER : string := "NOT_A_PSYCHROMETER".

Definition notFoundMessage : string :=
  "На зображенні не знайдено психрометра. Будь ласка, сфотографуйте прилад ВІТ-1 або ВІТ-2.".

Section Service.
Variable h : Host.

(** The body of the [try] block, from the oracle's outcome on. *)
Definition analyzeHygrometer_try (o : OracleOutcome) : completion jsval :=
  match o with
  | Rejected e => Throw e
  | Responded text =>
    match text with
    | None => Throw (Error "No response text from Gemini")
    | Some t =>
      if String.eqb t "" then Throw (Error "No response text from Gemini")
      else
        data <- JSON_parse h t ;;
        flag <- get data "isPsychrometer" ;;
        if negb (truthy flag) then Throw (Error NOT_A_PSYCHROMETER)
        else
          (* [data.wetTemp > data.dryTemp] only logs a warning: the
             clamp is not applied *)
          Normal data
    end
  end.

(** The [catch] block: the marker error is replaced by the user-facing
    message, anything else is thrown again unchanged. *)
Definition analyzeHygrometer (o : OracleOutcome) : completion jsval :=
  match analyzeHygrometer_try o with
  | Normal data => Normal data
  | Throw error =>
    if String.eqb (message error) NOT_A_PSYCHROMETER
    then Throw (Error notFoundMessage)
    else Throw error
  end.

End Service.

End GeminiService.

(** ** components/ResultCard *)

Module ResultCard.
Import JS Value Types Psychrometry.
Local Open Scope string_scope.

Record CardState := {
  readings : PsychrometricData;
  result : CalculationResult;
  isCorrected : bool;
  hasLearned : bool;
  validationError : option string
}.

(** The fields [handleChange] is called with by the two inputs. *)
Inductive field := F_dryTemp | F_wetTemp.

(** Calls of the calculator, in the order they are made. *)
Inductive call :=
| CalculateHumidity (dryTemp wetTemp : number)
| CalculateDewPoint (temp rh : number).

Definition wetAboveDryMessage : string :=
  "Температура вологого термометра не може бути вищою за сухий!".

(** The initial values of the five [useState] hooks. *)
Definition mount (initialData : PsychrometricData) : CardState :=
  {| readings := initialData;
     result := {| measured := initialData;
                  relativeHumidity := 0;
                  dewPoint := Some 0 |};
     isCorrected := false;
     hasLearned := false;
     validationError := None |}.

Definition truthy_string (s : option string) : bool :=
  match s with
  | Some s => negb (String.eqb s "")
  | None => false
  end.

Section Card.
Variable h : Host.
Variable initialData : PsychrometricData.

(** The effect on [[readings, initialData]]: the state after its state
    updates are applied, and the calculator calls it made. *)
Definition recalculate (st : CardState) : CardState * list call :=
  let r := readings st in
  if gt (wetTemp r) (dryTemp r) then
    ({| readings := r;
        result := {| measured := measured (result st);
                     relativeHumidity := 0;
                     dewPoint := None |};
        isCorrected := isCorrected st;
        hasLearned := hasLearned st;
        validationError := Some wetAboveDryMessage |}, [])
  else
    let rh := calculateHumidity h (dryTemp r) (wetTemp r) in
    let dp := calculateDewPoint h (dryTemp r) rh in
    let hasChanged :=
      gt (Math_abs (dryTemp r - dryTemp initialData)) 0.01
      || gt (Math_abs (wetTemp r - wetTemp initialData)) 0.01 in
    ({| readings := r;
        result := {| measured := r;
                     relativeHumidity := rh;
                     dewPoint := Some (toFixed1_parseFloat dp) |};
        isCorrected := hasChanged;
        hasLearned := if hasChanged then false else hasLearned st;
        validationError := None |},
     [CalculateHumidity (dryTemp r) (wetTemp r);
      CalculateDewPoint (dryTemp r) rh]).

Definition setField (f : field) (num : number) (r : PsychrometricData)
  : PsychrometricData :=
  match f with
  | F_dryTemp => {| dryTemp := num; wetTemp := wetTemp r;
                    isPsychrometer := isPsychrometer r;
                    confidence := confidence r |}
  | F_wetTemp => {| dryTemp := dryTemp r; wetTemp := num;
                    isPsychrometer := isPsychrometer r;
                    confidence := confidence r |}
  end.

(** [handleChange]: the new readings when [setReadings] is called, [None]
    when the handler returns without a state update. *)
Definition handleChange (f : field) (value : string) (st : CardState)
  : option PsychrometricData :=
  if String.eqb value "" || String.eqb value "-" then None
  else
    let num := parseFloat h value in
    if negb (isNaN num) then Some (setField f num (readings st))
    else None.

(** An edit event through to the next stable state: a state update
    re-renders the card and runs the effect; without one nothing
    happens. *)
Definition edit (f : field) (value : string) (st : CardState) : CardState :=
  match handleChange f value st with
  | Some r =>
    fst (recalculate {| readings := r;
                        result := result st;
                        isCorrected := isCorrected st;
                        hasLearned := hasLearned st;
                        validationError := validationError st |})
  | None => st
  end.

(** [handleLearnClick]: the arguments [onLearn] was called with, if it
    was, and the state once [onLearn] has returned; when [onLearn]
    throws, [setHasLearned] is not reached and the state stays as it
    was (see [Session.step]). *)
Definition handleLearnClick (st : CardState)
  : CardState * option (number * number) :=
  if truthy_string (validationError st) then (st, None)
  else
    ({| readings := readings st;
        result := result st;
        isCorrected := isCorrected st;
        hasLearned := true;
        validationError := validationError st |},
     Some (dryTemp (readings st), wetTemp (readings st))).

(** The card once mounted and after its first effect. *)
Definition mounted : CardState := fst (recalculate (mount initialData)).

(** The card after a sequence of edits. *)
Definition afterEdits (edits : list (field * string)) : CardState :=
  fold_left (fun st e => edit (fst e) (snd e) st) edits mounted.

End Card.

(** What the card renders: the humidity figure ([None] stands for the
    placeholder), the dew-point line and the learn button. *)
Definition shownHumidity (st : CardState) : option number :=
  if truthy_string (validationError st) then None
  else Some (relativeHumidity (result st)).

Definition shownDewPoint (st : CardState) : option number :=
  if negb (truthy_string (validationError st)) then dewPoint (result st)
  else None.

Definition learnButtonShown (st : CardState) : bool :=
  isCorrected st && negb (hasLearned st)
  && negb (truthy_string (validationError st)).

End ResultCard.

(** ** App *)

Module App.
Import JS Value Types GeminiService.
Local Open Scope string_scope.

(** The five [useState] cells of [App], and the item of [localStorage]
    stored under ['psychro_training_data']. *)
Record AppModel := {
  appState : AppState;
  image : option string;
  data : option jsval;
  errorMsg : option string;
  trainingExamples : list TrainingExample;
  stored : option string
}.

(** The application on a first visit: the initial values of the hooks
    and nothing stored, so that the load effect finds no record and
    changes nothing. *)
Definition initial : AppModel :=
  {| appState := IDLE; image := None; data := None; errorMsg := None;
     trainingExamples := []; stored := None |}.

Definition storageKey : string := "psychro_training_data".

Definition defaultErrorMessage : string :=
  "Не вдалося розпізнати показники. Переконайтеся, що фото чітке і шкалу добре видно.".

(** [xs.slice(-n)]: the last [n] elements, all of them when there are
    fewer. *)
Definition slice_last {A} (n : nat) (xs : list A) : list A :=
  skipn (List.length xs - n) xs.

(** [z.toString()] for an integer. *)
Definition Z_toString (z : Z) : string :=
  NilZero.string_of_int (Z.to_int z).

Section Handlers.
Variable h : Host.

(** The load effect run on mount: the value [trainingExamples] holds
    afterwards, given the value [current] it held before (the empty
    array).  The value [JSON.parse] returns is stored unchecked. *)
Definition loadEffect (saved : option string) (current : jsval) : jsval :=
  match saved with
  | Some s =>
    if negb (String.eqb s "") then
      match JSON_parse h s with
      | Normal v => v
      | Throw _ => current
      end
    else current
  | None => current
  end.

(** The header's [trainingExamples.length > 0] test. *)
Definition headerShowsBadge (examples : jsval) : completion bool :=
  match get examples "length" with
  | Normal (JNum n) => Normal (gt n 0)
  | Normal _ => Normal false
  | Throw e => Throw e
  end.

(** [handleImageSelected] up to the [await]. *)
Definition handleImageSelected_begin (base64 : string) (st : AppModel)
  : AppModel :=
  {| appState := ANALYZING; image := Some base64; data := data st;
     errorMsg := None; trainingExamples := trainingExamples st;
     stored := stored st |}.

(** [handleImageSelected] from the [await] on. *)
Definition handleImageSelected_settle (o : OracleOutcome) (st : AppModel)
  : AppModel :=
  match analyzeHygrometer h o with
  | Normal result =>
    {| appState := SUCCESS; image := image st; data := Some result;
       errorMsg := errorMsg st; trainingExamples := trainingExamples st;
       stored := stored st |}
  | Throw err =>
    {| appState := ERROR; image := image st; data := data st;
       errorMsg := Some (if String.eqb (message err) ""
                         then defaultErrorMessage else message err);
       trainingExamples := trainingExamples st;
       stored := stored st |}
  end.

Definition handleImageSelected (base64 : string) (o : OracleOutcome)
  (st : AppModel) : AppModel :=
  handleImageSelected_settle o (handleImageSelected_begin base64 st).

(** The values [appState] takes in the course of [handleImageSelected]. *)
Definition statesVisited (base64 : string) (o : OracleOutcome)
  (st : AppModel) : list AppState :=
  [ appState (handleImageSelected_begin base64 st);
    appState (handleImageSelected base64 o st) ].

Definition handleReset (st : AppModel) : AppModel :=
  {| appState := IDLE; image := None; data := None; errorMsg := None;
     trainingExamples := trainingExamples st; stored := stored st |}.

(** [handleLearn]: the state once the call is over, whether it returned
    or threw; [now_id] and [now_ts] are what the two calls of
    [Date.now()] return.  [setTrainingExamples] comes before [setItem],
    so the buffer is updated also when [setItem] throws; the stored item
    then stays as it was. *)
Definition handleLearn (now_id now_ts : Z)
  (correctedDry correctedWet : number) (st : AppModel) : AppModel :=
  match image st with
  | None => st
  | Some img =>
    if String.eqb img "" then st
    else
      let newExample :=
        {| id := Z_toString now_id; timestamp := now_ts; imageUrl := img;
           correctedDry := correctedDry; correctedWet := correctedWet |} in
      let updatedExamples :=
        slice_last 3 (trainingExamples st ++ [newExample]) in
      let text := JSON_stringify h (JArr (map encodeExample updatedExamples)) in
      {| appState := appState st; image := image st; data := data st;
         errorMsg := errorMsg st;
         trainingExamples := updatedExamples;
         stored := match localStorage_setItem h storageKey text with
                   | Normal _ => Some text
                   | Throw _ => stored st
                   end |}
  end.

(** How that call completes: it throws what [setItem] throws. *)
Definition handleLearn_completion (now_id now_ts : Z)
  (correctedDry correctedWet : number) (st : AppModel) : completion unit :=
  match image st with
  | None => Normal tt
  | Some img =>
    if String.eqb img "" then Normal tt
    else
      let newExample :=
        {| id := Z_toString now_id; timestamp := now_ts; imageUrl := img;
           correctedDry := correctedDry; correctedWet := correctedWet |} in
      let updatedExamples :=
        slice_last 3 (trainingExamples st ++ [newExample]) in
      localStorage_setItem h storageKey
        (JSON_stringify h (JArr (map encodeExample updatedExamples)))
  end.

Definition handleLearn_throws (now_id now_ts : Z)
  (correctedDry correctedWet : number) (st : AppModel) : bool :=
  match handleLearn_completion now_id now_ts correctedDry correctedWet st with
  | Normal _ => false
  | Throw _ => true
  end.

(** One call of [handleLearn]: the two clock readings and the corrected
    values. *)
Record LearnCall := {
  at_id : Z;
  at_ts : Z;
  learnedDry : number;
  learnedWet : number
}.

(** The exemplar [handleLearn] builds from a call while [img] is the
    selected image. *)
Definition exampleOf (img : string) (c : LearnCall) : TrainingExample :=
  {| id := Z_toString (at_id c); timestamp := at_ts c; imageUrl := img;
     correctedDry := learnedDry c; correctedWet := learnedWet c |}.

Definition learnAll (calls : list LearnCall) (st : AppModel) : AppModel :=
  fold_left
    (fun s c => handleLearn (at_id c) (at_ts c) (learnedDry c) (learnedWet c) s)
    calls st.

End Handlers.

End App.

(** ** The session: [App] together with the [ResultCard] it renders *)

Module Session.
Import JS Value Types GeminiService.

Record Session := {
  app : App.AppModel;
  card : option (PsychrometricData * ResultCard.CardState)
}.

(** [SelectImage] is a selection together with the outcome its request
    ends in; [Select] is the selection alone, which leaves the
    application waiting, and [Settle] the outcome arriving. *)
Inductive Event :=
| SelectImage (base64 : string) (o : OracleOutcome)
| Reset
| Edit (f : ResultCard.field) (value : string)
| LearnClick (now_id now_ts : Z)
| Select (base64 : string)
| Settle (o : OracleOutcome).

Section Steps.
Variable h : Host.

(** [App] renders the card when
    [appState === SUCCESS && data && image]; the card is typed by the
    reading the response holds. *)
Definition render (a : App.AppModel)
  : option (PsychrometricData * ResultCard.CardState) :=
  match App.appState a, App.data a, App.image a with
  | SUCCESS, Some d, Some img =>
    if truthy d && negb (String.eqb img "") then
      match asPsychrometricData d with
      | Some initialData =>
        Some (initialData, ResultCard.mounted h initialData)
      | None => None
      end
    else None
  | _, _, _ => None
  end.

(** One user event, through to the next stable state.  An event whose
    control is not on screen changes nothing. *)
Definition step (s : Session) (ev : Event) : Session :=
  match ev with
  | SelectImage base64 o =>
    match App.appState (app s) with
    | IDLE =>
      let a := App.handleImageSelected h base64 o (app s) in
      {| app := a; card := render a |}
    | _ => s
    end
  | Reset =>
    match App.appState (app s) with
    | ERROR | SUCCESS => {| app := App.handleReset (app s); card := None |}
    | _ => s
    end
  | Edit f value =>
    match card s with
    | Some (initialData, c) =>
      {| app := app s;
         card := Some (initialData, ResultCard.edit h initialData f value c) |}
    | None => s
    end
  | LearnClick now_id now_ts =>
    match card s with
    | Some (initialData, c) =>
      if ResultCard.learnButtonShown c then
        match ResultCard.handleLearnClick c with
        | (c', Some (dry, wet)) =>
          {| app := App.handleLearn h now_id now_ts dry wet (app s);
             card :=
               Some (initialData,
                     if App.handleLearn_throws h now_id now_ts dry wet (app s)
                     then c else c') |}
        | (c', None) => {| app := app s; card := Some (initialData, c') |}
        end
      else s
    | None => s
    end
  | Select base64 =>
    match App.appState (app s) with
    | IDLE =>
      let a := App.handleImageSelected_begin base64 (app s) in
      {| app := a; card := render a |}
    | _ => s
    end
  | Settle o =>
    match App.appState (app s) with
    | ANALYZING =>
      let a := App.handleImageSelected_settle h o (app s) in
      {| app := a; card := render a |}
    | _ => s
    end
  end.

(** Whether the learn click throws in [s]: the button is on screen and
    [handleLearn] throws what [setItem] threw. *)
Definition learnThrows (s : Session) (now_id now_ts : Z) : bool :=
  match card s with
  | Some (_, c) =>
    if ResultCard.learnButtonShown c then
      match ResultCard.handleLearnClick c with
      | (_, Some (dry, wet)) =>
        App.handleLearn_throws h now_id now_ts dry wet (app s)
      | (_, None) => false
      end
    else false
  | None => false
  end.

Definition run (s : Session) (evs : list Event) : Session :=
  fold_left step evs s.

(** Whether the event throws in [s]; only a learn click can. *)
Definition throws (s : Session) (ev : Event) : bool :=
  match ev with
  | LearnClick now_id now_ts => learnThrows s now_id now_ts
  | _ => false
  end.

(** No event of the run throws. *)
Fixpoint quiet (s : Session) (evs : list Event) : bool :=
  match evs with
  | [] => true
  | ev :: rest => negb (throws s ev) && quiet (step s ev) rest
  end.

End Steps.

End Session.

(** ** A reference host

    [parseFloat], [JSON.parse] and [JSON.stringify] written out after
    ECMA-262 over byte strings (UTF-8; white space is the ASCII one).
    Together with [RefMath] it gives a host on which the model runs. *)

Module RefHost.
Import JS Value.
Local Open Scope string_scope.
Local Open Scope Z_scope.

(** The number nearest to [D * 10^k], signed by [neg]. *)
Definition of_decimal (neg : bool) (D k : Z) : number :=
  match D with
  | Zpos d =>
    match k with
    | Zneg p =>
      SF2Prim (SF64div (S754_finite neg d 0) (S754_finite false (10 ^ p) 0))
    | _ =>
      SF2Prim (binary_normalize prec emax
                 (if neg then - (D * 10 ^ k) else D * 10 ^ k) 0 false)
    end
  | _ => if neg then neg_zero else zero
  end.

Definition is_digit (c : ascii) : bool :=
  (48 <=? Z.of_nat (nat_of_ascii c)) && (Z.of_nat (nat_of_ascii c) <=? 57).

Definition digit_val (c : ascii) : Z := Z.of_nat (nat_of_ascii c) - 48.

(** The value and the number of the leading decimal digits, and what
    follows them. *)
Fixpoint scan_digits (s : string) (acc count : Z) : Z * Z * string :=
  match s with
  | String c rest =>
    if is_digit c then scan_digits rest (10 * acc + digit_val c) (count + 1)
    else (acc, count, s)
  | EmptyString => (acc, count, s)
  end.

Definition scan_sign (s : string) : bool * string :=
  match s with
  | String "-" rest => (true, rest)
  | String "+" rest => (false, rest)
  | _ => (false, s)
  end.

(** An exponent part if one is there in full, nothing otherwise. *)
Definition scan_exponent (s : string) : Z * string :=
  match s with
  | String c rest =>
    if Ascii.eqb c "e" || Ascii.eqb c "E" then
      let (neg, r1) := scan_sign rest in
      let '(v, n, r2) := scan_digits r1 0 0 in
      if n =? 0 then (0, s) else (if neg then - v else v, r2)
    else (0, s)
  | EmptyString => (0, s)
  end.

(** An unsigned decimal literal [digits . digits exponent] with at least
    one digit: its digits [D] and exponent [k] (the value is
    [D * 10^k]), the numbers of integer and fraction digits, and the
    rest. *)
Definition scan_decimal (s : string) : option (Z * Z * Z * Z * string) :=
  let '(i, ni, r1) := scan_digits s 0 0 in
  let '(D, nf, r2) :=
    match r1 with
    | String "." r => scan_digits r i 0
    | _ => (i, 0, r1)
    end in
  if ni + nf =? 0 then None
  else let (x, r3) := scan_exponent r2 in Some (D, x - nf, ni, nf, r3).

Definition is_space (c : ascii) : bool :=
  let n := Z.of_nat (nat_of_ascii c) in
  ((9 <=? n) && (n <=? 13)) || (n =? 32).

Fixpoint skip (p : ascii -> bool) (s : string) : string :=
  match s with
  | String c rest => if p c then skip p rest else s
  | EmptyString => s
  end.

Definition parseFloat (s : string) : number :=
  let (neg, r) := scan_sign (skip is_space s) in
  if prefix "Infinity" r then (if neg then neg_infinity else infinity)
  else
    match scan_decimal r with
    | Some (D, k, _, _, _) => of_decimal neg D k
    | None => nan
    end.

(** *** JSON.parse *)

Definition syntaxError : js_error :=
  {| err_name := "SyntaxError"; message := "Unexpected token in JSON" |}.

Definition is_json_space (c : ascii) : bool :=
  let n := Z.of_nat (nat_of_ascii c) in
  (n =? 32) || (n =? 9) || (n =? 10) || (n =? 13).

Definition quote : ascii := "034".
Definition backslash : ascii := "092".

Definition hex_val (c : ascii) : option Z :=
  let n := Z.of_nat (nat_of_ascii c) in
  if (48 <=? n) && (n <=? 57) then Some (n - 48)
  else if (65 <=? n) && (n <=? 70) then Some (n - 55)
  else if (97 <=? n) && (n <=? 102) then Some (n - 87)
  else None.

Definition byte (n : Z) : ascii := ascii_of_nat (Z.to_nat n).

(** The UTF-8 encoding of a code point, in reverse order. *)
Definition utf8_rev (cp : Z) : list ascii :=
  if cp <? 128 then [byte cp]
  else if cp <? 2048 then [byte (128 + cp mod 64); byte (192 + cp / 64)]
  else if cp <? 65536 then
    [byte (128 + cp mod 64); byte (128 + (cp / 64) mod 64);
     byte (224 + cp / 4096)]
  else
    [byte (128 + cp mod 64); byte (128 + (cp / 64) mod 64);
     byte (128 + (cp / 4096) mod 64); byte (240 + cp / 262144)].

Definition string_of_rev (l : list ascii) : string :=
  fold_left (fun s c => String c s) l EmptyString.

(** A high surrogate left without its low half becomes U+FFFD. *)
Definition flush (hi : option Z) (acc : list ascii) : list ascii :=
  match hi with
  | Some _ => utf8_rev 65533 ++ acc
  | None => acc
  end.

(** The characters of a string literal after its opening quote. *)
Fixpoint parse_string (s : string) (hi : option Z) (acc : list ascii)
  : option (string * string) :=
  match s with
  | EmptyString => None
  | String c rest =>
    if Ascii.eqb c quote then Some (string_of_rev (flush hi acc), rest)
    else if Ascii.eqb c backslash then
      match rest with
      | String "u" (String h1 (String h2 (String h3 (String h4 rest')))) =>
        match hex_val h1, hex_val h2, hex_val h3, hex_val h4 with
        | Some a, Some b, Some c', Some d =>
          let u := ((a * 16 + b) * 16 + c') * 16 + d in
          if (55296 <=? u) && (u <? 56320) then
            parse_string rest' (Some u) (flush hi acc)
          else if (56320 <=? u) && (u <? 57344) then
            match hi with
            | Some h =>
              parse_string rest' None
                (utf8_rev (65536 + (h - 55296) * 1024 + (u - 56320)) ++ acc)
            | None => parse_string rest' None (utf8_rev 65533 ++ acc)
            end
          else parse_string rest' None (utf8_rev u ++ flush hi acc)
        | _, _, _, _ => None
        end
      | String e rest' =>
        let simple (b : Z) := parse_string rest' None (byte b :: flush hi acc) in
        if Ascii.eqb e quote then simple 34
        else if Ascii.eqb e backslash then simple 92
        else if Ascii.eqb e "/" then simple 47
        else if Ascii.eqb e "b" then simple 8
        else if Ascii.eqb e "f" then simple 12
        else if Ascii.eqb e "n" then simple 10
        else if Ascii.eqb e "r" then simple 13
        else if Ascii.eqb e "t" then simple 9
        else None
      | EmptyString => None
      end
    else if Z.of_nat (nat_of_ascii c) <? 32 then None
    else parse_string rest None (c :: flush hi acc)
  end.

(** A JSON number: an optional minus, an integer part without leading
    zeros, an optional fraction with at least one digit, an optional
    exponent. *)
Definition parse_number (s : string) : option (number * string) :=
  let (neg, r) := match s with
                  | String "-" rest => (true, rest)
                  | _ => (false, s)
                  end in
  match scan_decimal r with
  | Some (D, k, ni, nf, rest) =>
    let leading_zero := match r with
                        | String "0" _ => 1 <? ni
                        | _ => false
                        end in
    let bare_dot := match skip is_digit r with
                    | String "." _ => nf =? 0
                    | _ => false
                    end in
    if (ni =? 0) || leading_zero || bare_dot then None
    else Some (of_decimal neg D k, rest)
  | None => None
  end.

(** A later member replaces an earlier one of the same name, in place. *)
Fixpoint set_field (k : string) (v : jsval) (fields : list (string * jsval))
  : list (string * jsval) :=
  match fields with
  | [] => [(k, v)]
  | (k', v') :: rest =>
    if String.eqb k k' then (k, v) :: rest else (k', v') :: set_field k v rest
  end.

Definition expect (lit : string) (v : jsval) (s : string)
  : option (jsval * string) :=
  if prefix lit s
  then Some (v, substring (String.length lit)
                          (String.length s - String.length lit) s)
  else None.

Fixpoint parse_value (fuel : nat) (s : string) : option (jsval * string) :=
  match fuel with
  | O => None
  | S fuel' =>
    match skip is_json_space s with
    | String "n" _ as t => expect "null" JNull t
    | String "t" _ as t => expect "true" (JBool true) t
    | String "f" _ as t => expect "false" (JBool false) t
    | String "[" rest =>
      match skip is_json_space rest with
      | String "]" rest' => Some (JArr [], rest')
      | t => parse_elements fuel' t []
      end
    | String "{" rest =>
      match skip is_json_space rest with
      | String "}" rest' => Some (JObj [], rest')
      | t => parse_members fuel' t []
      end
    | String c rest as t =>
      if Ascii.eqb c quote then
        match parse_string rest None [] with
        | Some (str, r) => Some (JStr str, r)
        | None => None
        end
      else
        match parse_number t with
        | Some (n, r) => Some (JNum n, r)
        | None => None
        end
    | EmptyString => None
    end
  end

with parse_elements (fuel : nat) (s : string) (acc : list jsval)
  : option (jsval * string) :=
  match fuel with
  | O => None
  | S fuel' =>
    match parse_value fuel' s with
    | Some (v, r) =>
      match skip is_json_space r with
      | String "," r' => parse_elements fuel' r' (v :: acc)
      | String "]" r' => Some (JArr (rev (v :: acc)), r')
      | _ => None
      end
    | None => None
    end
  end

with parse_members (fuel : nat) (s : string) (acc : list (string * jsval))
  : option (jsval * string) :=
  match fuel with
  | O => None
  | S fuel' =>
    match skip is_json_space s with
    | String c rest =>
      if Ascii.eqb c quote then
        match parse_string rest None [] with
        | Some (k, r) =>
          match skip is_json_space r with
          | String ":" r1 =>
            match parse_value fuel' r1 with
            | Some (v, r2) =>
              match skip is_json_space r2 with
              | String "," r3 => parse_members fuel' r3 (set_field k v acc)
              | String "}" r3 => Some (JObj (set_field k v acc), r3)
              | _ => None
              end
            | None => None
            end
          | _ => None
          end
        | None => None
        end
      else None
    | EmptyString => None
    end
  end.

Definition JSON_parse (text : string) : completion jsval :=
  match parse_value (2 * String.length text + 2) text with
  | Some (v, rest) =>
    match skip is_json_space rest with
    | EmptyString => Normal v
    | _ => Throw syntaxError
    end
  | None => Throw syntaxError
  end.

(** *** JSON.stringify *)

Definition decimal_digits (z : Z) : string :=
  NilZero.string_of_uint (N.to_uint (Z.to_N z)).

(** The position [n] of the decimal point of [m * 2^e]:
    [10^(n-1) <= m * 2^e < 10^n]. *)
Definition decimal_point (m : positive) (e : Z) : Z :=
  let scaled := match e with
                | Zneg p => Zpos m * 10 ^ 400 / 2 ^ Zpos p
                | _ => Zpos m * 2 ^ e * 10 ^ 400
                end in
  Z.of_nat (String.length (decimal_digits scaled)) - 400.

(** The [k]-digit integer [s] nearest to [m * 2^e / 10^(n-k)] (the even
    one on a tie), with [n] moved up when [s] rounds to [10^k]. *)
Definition digits_at (m : positive) (e n k : Z) : Z * Z :=
  let (num, den) := match e with
                    | Zneg p => (Zpos m, 2 ^ Zpos p)
                    | _ => (Zpos m * 2 ^ e, 1)
                    end in
  let (num, den) := if n <=? k then (num * 10 ^ (k - n), den)
                    else (num, den * 10 ^ (n - k)) in
  let q := (2 * num + den) / (2 * den) in
  let r := (2 * num + den) mod (2 * den) in
  let s := if (r =? 0) && Z.odd q then q - 1 else q in
  if s =? 10 ^ k then (10 ^ (k - 1), n + 1) else (s, n).

(** The least [k] whose digits read back as [x], with its digits. *)
Fixpoint shortest (x : number) (m : positive) (e n : Z) (k : Z) (fuel : nat)
  : Z * Z * Z :=
  let (s, n') := digits_at m e n k in
  match fuel with
  | O => (s, n', k)
  | S fuel' =>
    if PrimFloat.eqb (of_decimal false s (n' - k)) x then (s, n', k)
    else shortest x m e n (k + 1) fuel'
  end.

Definition zeros (n : Z) : string :=
  string_of_list_ascii (repeat "0"%char (Z.to_nat n)).

(** Number::toString, radix 10. *)
Definition Number_toString (x : number) : string :=
  match Prim2SF x with
  | S754_nan => "NaN"
  | S754_infinity s => if s then "-Infinity" else "Infinity"
  | S754_zero _ => "0"
  | S754_finite sg m e =>
    let '(s, n, k) := shortest (abs x) m e (decimal_point m e) 1 16 in
    let ds := decimal_digits s in
    let body :=
      if (k <=? n) && (n <=? 21) then ds ++ zeros (n - k)
      else if (0 <? n) && (n <=? 21) then
        substring 0 (Z.to_nat n) ds ++ "."
        ++ substring (Z.to_nat n) (Z.to_nat (k - n)) ds
      else if (-6 <? n) && (n <=? 0) then "0." ++ zeros (- n) ++ ds
      else
        let ex := (if n - 1 <? 0 then "e-" else "e+")
                  ++ decimal_digits (Z.abs (n - 1)) in
        if k =? 1 then ds ++ ex
        else substring 0 1 ds ++ "." ++ substring 1 (Z.to_nat (k - 1)) ds ++ ex
    in
    if sg then "-" ++ body else body
  end.

Definition hex_digit (n : Z) : ascii :=
  if n <? 10 then byte (48 + n) else byte (87 + n).

Fixpoint quote_chars (s : string) : string :=
  match s with
  | EmptyString => String quote EmptyString
  | String c rest =>
    let n := Z.of_nat (nat_of_ascii c) in
    let esc (e : ascii) := String backslash (String e (quote_chars rest)) in
    if Ascii.eqb c quote then esc quote
    else if Ascii.eqb c backslash then esc backslash
    else if n =? 8 then esc "b"%char
    else if n =? 9 then esc "t"%char
    else if n =? 10 then esc "n"%char
    else if n =? 12 then esc "f"%char
    else if n =? 13 then esc "r"%char
    else if n <? 32 then
      String backslash ("u00" ++ String (hex_digit (n / 16))
                                  (String (hex_digit (n mod 16))
                                     (quote_chars rest)))
    else String c (quote_chars rest)
  end.

Definition quote_string (s : string) : string := String quote (quote_chars s).

(** [undefined] is left out of an object and written [null] in an
    array; at the top it is the text [setItem] would store. *)
Fixpoint JSON_stringify (v : jsval) : string :=
  match v with
  | JUndefined => "undefined"
  | JNull => "null"
  | JBool b => if b then "true" else "false"
  | JNum n => if is_finite n then Number_toString n else "null"
  | JStr s => quote_string s
  | JArr items =>
    let element x := match x with
                     | JUndefined => "null"
                     | _ => JSON_stringify x
                     end in
    "[" ++ (fix join (l : list jsval) : string :=
              match l with
              | [] => ""
              | [x] => element x
              | x :: rest => element x ++ "," ++ join rest
              end) items ++ "]"
  | JObj fields =>
    "{" ++ (fix join (first : bool) (l : list (string * jsval)) : string :=
              match l with
              | [] => ""
              | (_, JUndefined) :: rest => join first rest
              | (k, x) :: rest =>
                (if first then "" else ",")
                ++ quote_string k ++ ":" ++ JSON_stringify x
                ++ join false rest
              end) true fields ++ "}"
  end.

(** A text written with ['] where JSON has the double quote. *)
Definition requote (s : string) : string :=
  string_of_list_ascii
    (map (fun c => if Ascii.eqb c "'" then quote else c)
         (list_ascii_of_string s)).

End RefHost.

(** ** The reference host as a [Math] and a [Host] *)

Module Reference.
Import JS Value.

Definition math : Math.
Proof.
  assert (Z : forall z, is_zero z = true ->
                exists s, Prim2SF z = S754_zero s).
  { intros z H. unfold is_zero in H. rewrite eqb_spec in H.
    replace (Prim2SF zero) with (S754_zero false) in H by reflexivity.
    destruct (Prim2SF z) as [s|s| |s m e]; unfold SFeqb in H; simpl in H;
      try destruct s; try discriminate H; eauto. }
  refine {| Math_exp := RefMath.exp; Math_log := RefMath.log |}.
  - reflexivity.
  - reflexivity.
  - reflexivity.
  - intros z H. destruct (Z z H) as [s E].
    unfold RefMath.exp. rewrite E. reflexivity.
  - reflexivity.
  - intros x H. rewrite ltb_spec in H.
    replace (Prim2SF zero) with (S754_zero false) in H by reflexivity.
    unfold RefMath.log.
    destruct (Prim2SF x) as [s|s| |s m e]; unfold SFltb in H; simpl in H;
      try destruct s; try discriminate H; reflexivity.
  - intros z H. destruct (Z z H) as [s E].
    unfold RefMath.log. rewrite E. reflexivity.
  - vm_compute. reflexivity.
  - reflexivity.
Defined.

(** [setItem] on an origin that holds [quota] characters under the one
    key the application writes. *)
Definition setItem (quota : Z) (key value : string) : completion unit :=
  if (Z.of_nat (String.length value) <=? quota)%Z then Normal tt
  else Throw {| err_name := "QuotaExceededError";
                message := "The quota has been exceeded." |}.

(** A host with the usual quota of 5 MiB. *)
Definition host : Host :=
  {| Value.math := math;
     parseFloat := RefHost.parseFloat;
     JSON_parse := RefHost.JSON_parse;
     JSON_stringify := RefHost.JSON_stringify;
     localStorage_setItem := setItem 5242880;
     JSON_parse_null := eq_refl |}.

(** The same host with room for 64 characters only. *)
Definition crampedHost : Host :=
  {| Value.math := math;
     parseFloat := RefHost.parseFloat;
     JSON_parse := RefHost.JSON_parse;
     JSON_stringify := RefHost.JSON_stringify;
     localStorage_setItem := setItem 64;
     JSON_parse_null := eq_refl |}.

End Reference.

(** ** Notions the statements are written with *)

Module Notions.
Import JS Value Types.

(** The clamp of [calculateHumidity]. *)
Definition clamp (x : number) : number := Math_max 0 (Math_min 100 x).

(** A count of tenths reads back as a number between 0 and 100. *)
Definition tenths_ok (n : nat) : bool :=
  let r := of_tenths false (Z.of_nat n) in
  negb (is_nan r) && (0 <=? r) && (r <=? 100).

(** What the card's effect leaves behind, as a function of the
    readings. *)
Definition settled (st : ResultCard.CardState) : Prop :=
  let r := ResultCard.readings st in
  if gt (wetTemp r) (dryTemp r)
  then ResultCard.validationError st = Some ResultCard.wetAboveDryMessage
       /\ relativeHumidity (ResultCard.result st) = 0
       /\ dewPoint (ResultCard.result st) = None
  else ResultCard.validationError st = None.

Definition card_settled (s : Session.Session) : Prop :=
  match Session.card s with
  | Some (_, c) => settled c
  | None => True
  end.

(** [f] rises from each element of [l] to the next. *)
Fixpoint strictly_increasing (f : number -> number) (l : list number)
  : bool :=
  match l with
  | x :: (y :: _) as rest => (f x <? f y) && strictly_increasing f rest
  | _ => true
  end.

End Notions.

(** ** Sample data *)

Module Samples.
Import JS Value Types.
Local Open Scope string_scope.

Definition photo : string := "data:image/jpeg;base64,/9j/4AAQSkZJRg==".

(** The application once a photograph has been selected. *)
Definition photoSelected : App.AppModel :=
  App.handleImageSelected_begin photo App.initial.

Definition fresh : Session.Session :=
  {| Session.app := App.initial; Session.card := None |}.

Definition learnAt (n : Z) : App.LearnCall :=
  {| App.at_id := 1700000000000 + n; App.at_ts := 1700000000000 + n;
     App.learnedDry := 20.2; App.learnedWet := 15 |}.

(** Two oracle responses. *)
Definition notAnInstrument : string :=
  RefHost.requote "{'isPsychrometer':false,'dryTemp':0,'wetTemp':0}".

Definition wetAboveDry : string :=
  RefHost.requote "{'isPsychrometer':true,'dryTemp':20,'wetTemp':25}".

Definition reading : PsychrometricData :=
  {| dryTemp := 20; wetTemp := 15; isPsychrometer := true;
     confidence := None |}.

(** Readings the validation accepts and whose humidity is clamped
    to 0. *)
Definition dryAir : PsychrometricData :=
  {| dryTemp := 35; wetTemp := 14; isPsychrometer := true;
     confidence := None |}.

(** The readings the scale can show, every 0.2 degrees from -40 to 60,
    as [parseFloat] reads them. *)
Definition scale : list number :=
  map (fun k => RefHost.of_decimal (k <? 0)%Z (Z.abs (2 * k)) (-1))
      (map (fun n => (Z.of_nat n - 200)%Z) (seq 0 501)).

End Samples.

(** ** Number.prototype.toFixed *)

Module Format.
Import JS.
Local Open Scope string_scope.

(** [x.toFixed(1)]: the name of a value that is not finite, the shortest
    round-trip notation from 1e21 on, and otherwise the digits of the
    nearest count of tenths (the larger on a tie), padded to two, with
    the point before the last one and a minus sign when [x < 0]. *)
Definition toFixed1 (x : number) : string :=
  match Prim2SF x with
  | S754_nan => "NaN"
  | S754_infinity s => if s then "-Infinity" else "Infinity"
  | S754_zero _ => "0.0"
  | S754_finite s m e =>
    if (1e21 <=? abs x)%float then RefHost.Number_toString x
    else
      let n := tenths m e in
      let ds := RefHost.decimal_digits n in
      let ds := if (n <? 10)%Z then "0" ++ ds else ds in
      let k := String.length ds in
      (if s then "-" else "")
      ++ substring 0 (k - 1) ds ++ "." ++ substring (k - 1) 1 ds
  end.

(** The number a string of decimal digits denotes, read after [acc]. *)
Fixpoint digits_value (acc : Z) (s : string) : Z :=
  match s with
  | EmptyString => acc
  | String c rest => digits_value (10 * acc + RefHost.digit_val c) rest
  end.

Fixpoint all_digits (s : string) : bool :=
  match s with
  | EmptyString => true
  | String c rest => RefHost.is_digit c && all_digits rest
  end.

End Format.

(** ** services/geminiService: the request *)

Module GeminiRequest.
Import JS Value Types GeminiService.
Local Open Scope string_scope.

(** The remainder of [s] after the prefix [p], if [s] starts with it. *)
Fixpoint dropPrefix (p s : string) : option string :=
  match p, s with
  | EmptyString, _ => Some s
  | String a p', String b s' =>
    if Ascii.eqb a b then dropPrefix p' s' else None
  | String _ _, EmptyString => None
  end.

Fixpoint firstMatch (ps : list string) (s : string) : option string :=
  match ps with
  | [] => None
  | p :: ps' =>
    match dropPrefix p s with
    | Some rest => Some rest
    | None => firstMatch ps' s
    end
  end.

(** The strings [/^data:image\/(png|jpeg|jpg|webp);base64,/] matches, in
    the order of its alternatives. *)
Definition dataUrlPrefixes : list string :=
  map (fun t => "data:image/" ++ t ++ ";base64,")
      ["png"; "jpeg"; "jpg"; "webp"].

(** [s.replace(/^data:image\/(png|jpeg|jpg|webp);base64,/, "")]. *)
Definition stripDataUrlPrefix (s : string) : string :=
  match firstMatch dataUrlPrefixes s with
  | Some rest => rest
  | None => s
  end.

(** The elements of [parts]. *)
Inductive part :=
| TextPart (text : string)
| InlineData (mimeType data : string).

Definition exampleIntro : string :=
  "Ось приклад попереднього правильного зчитування, яке надав користувач. Використовуй це як еталон для розуміння шкали:".

Definition targetIntro : string :=
  "Тепер проаналізуй це НОВЕ зображення. Будь уважний до червоних стовпчиків.".

Definition systemPrompt : string :=
  "
      Ти - експертний метролог. Твоє завдання - зчитати покази психрометра (ВІТ-1, ВІТ-2).

      АЛГОРИТМ РОБОТИ:
      1. **Ідентифікація**: Перевір, чи є на фото психрометр (два вертикальні термометри, шкала, резервуар з водою). Якщо це фото кота, пейзажу або людини - поверни isPsychrometer: false і 0 для температур.
      2. **Пошук рідини**: Знайди два стовпчики з ЧЕРВОНОЮ (або підфарбованою) рідиною.
         - Зліва: Сухий термометр (Dry).
         - Справа: Вологий термометр (Wet).
      3. **Аналіз шкали**:
         - Основні цифри йдуть з кроком 10 або 5 градусів.
         - Числові підписи (наприклад, 10, 20) мають велику риску, що знаходиться ВНИЗУ числа (або навпроти нижнього краю).
         - Між цифрами є довгі риски (кожні 1 або 2 градуси).
         - **ВАЖЛИВО**: Найменші короткі риски відповідають 0,2°C.
      4. **Зчитування**:
         - Подивись на верхівку меніска (верхній край червоного стовпчика).
         - Визнач найближчу нижню риску і додай кількість маленьких поділок (x * 0.2).
      5. **Фізична перевірка**:
         - Температура вологого термометра НЕ МОЖЕ бути вищою за температуру сухого.
         - Wet <= Dry. Якщо ти бачиш інакше - ти помилився в зчитуванні шкали. Передивись ще раз.
    ".

Definition exampleValues (ex : TrainingExample) : string :=
  "Правильні значення для фото вище: Сухий="
  ++ Format.toFixed1 (correctedDry ex) ++ "°C, Вологий="
  ++ Format.toFixed1 (correctedWet ex) ++ "°C.".

(** The [parts] array as it stands when [generateContent] is called:
    the exemplar block when [examples.length > 0], built from
    [examples[examples.length - 1]], then the target image and the
    instructions. *)
Definition parts (base64Image : string) (examples : list TrainingExample)
  : list part :=
  let cleanBase64 := stripDataUrlPrefix base64Image in
  (match examples with
  | [] => []
  | first :: rest =>
    let ex := last rest first in
    let exBase64 := stripDataUrlPrefix (imageUrl ex) in
    [ TextPart exampleIntro;
      InlineData "image/jpeg" exBase64;
      TextPart (exampleValues ex) ]
   end
   ++ [ TextPart targetIntro;
        InlineData "image/jpeg" cleanBase64;
        TextPart systemPrompt ])%list.

End GeminiRequest.

(** ** components/ImageUploader *)

Module ImageUploader.
Import JS Value.
Local Open Scope string_scope.

(** The two attributes of a [File] the component reads. *)
Record File := { type : string; size : number }.

(** How [readAsDataURL] ends: with the data URL, or in an error.  In
    both cases the reader fires [loadend] last, with [result] null after
    an error. *)
Inductive ReadOutcome :=
| Loaded (result : string)
| Failed.

Definition notAnImageMessage : string :=
  "Будь ласка, завантажте файл зображення (JPG, PNG).".

Definition tooLargeMessage : string :=
  "Зображення занадто велике. Максимум 10MB.".

Definition readErrorMessage : string :=
  "Помилка при зчитуванні файлу.".

(** [processFile]: the [error] state afterwards and the arguments
    [onImageSelected] was called with ([None] stands for null). *)
Definition processFile (file : File) (o : ReadOutcome) (error : option string)
  : option string * list (option string) :=
  if negb (prefix "image/" (type file)) then (Some notAnImageMessage, [])
  else if gt (size file) (10 * 1024 * 1024) then (Some tooLargeMessage, [])
  else
    match o with
    | Loaded result => (None, [Some result])
    | Failed => (Some readErrorMessage, [None])
    end.

(** [handleFileChange]; [files] is [event.target.files?.[0]]. *)
Definition handleFileChange (files : option File) (o : ReadOutcome)
  (error : option string) : option string * list (option string) :=
  match files with
  | Some file => processFile file o error
  | None => (error, [])
  end.

End ImageUploader.

(** ** components/ZoomableImage *)

Module ZoomableImage.
Import JS.

Record point := { x : number; y : number }.

Definition origin : point := {| x := 0; y := 0 |}.

Record ZoomState := {
  scale : number;
  position : point;
  isDragging : bool;
  startPos : point
}.

(** The initial values of the four [useState] hooks. *)
Definition mount : ZoomState :=
  {| scale := 1; position := origin; isDragging := false;
     startPos := origin |}.

Definition handleZoomIn (st : ZoomState) : ZoomState :=
  {| scale := Math_min (scale st + 0.5) 4;
     position := position st;
     isDragging := isDragging st;
     startPos := startPos st |}.

Definition handleZoomOut (st : ZoomState) : ZoomState :=
  let newScale := Math_max (scale st - 0.5) 1 in
  {| scale := newScale;
     position := if newScale =? 1 then origin else position st;
     isDragging := isDragging st;
     startPos := startPos st |}.

Definition handleMouseDown (clientX clientY : number) (st : ZoomState)
  : ZoomState :=
  if gt (scale st) 1 then
    {| scale := scale st;
       position := position st;
       isDragging := true;
       startPos := {| x := clientX - x (position st);
                      y := clientY - y (position st) |} |}
  else st.

Definition handleMouseMove (clientX clientY : number) (st : ZoomState)
  : ZoomState :=
  if isDragging st && gt (scale st) 1 then
    let newX := clientX - x (startPos st) in
    let newY := clientY - y (startPos st) in
    {| scale := scale st;
       position := {| x := newX; y := newY |};
       isDragging := isDragging st;
       startPos := startPos st |}
  else st.

Definition handleMouseUp (st : ZoomState) : ZoomState :=
  {| scale := scale st;
     position := position st;
     isDragging := false;
     startPos := startPos st |}.

(** The effect on [[src]]. *)
Definition resetEffect (st : ZoomState) : ZoomState :=
  {| scale := 1;
     position := origin;
     isDragging := isDragging st;
     startPos := startPos st |}.

(** The [disabled] attributes of the two buttons. *)
Definition zoomOutDisabled (st : ZoomState) : bool := scale st <=? 1.
Definition zoomInDisabled (st : ZoomState) : bool := 4 <=? scale st.

Inductive Event :=
| ZoomIn
| ZoomOut
| MouseDown (clientX clientY : number)
| MouseMove (clientX clientY : number)
| MouseUp
| MouseLeave
| SrcChange.

(** One event; a disabled button does not call its handler. *)
Definition step (st : ZoomState) (ev : Event) : ZoomState :=
  match ev with
  | ZoomIn => if zoomInDisabled st then st else handleZoomIn st
  | ZoomOut => if zoomOutDisabled st then st else handleZoomOut st
  | MouseDown clientX clientY => handleMouseDown clientX clientY st
  | MouseMove clientX clientY => handleMouseMove clientX clientY st
  | MouseUp | MouseLeave => handleMouseUp st
  | SrcChange => resetEffect st
  end.

(** The component after its first effect and a sequence of events. *)
Definition run (evs : list Event) : ZoomState :=
  fold_left step evs (resetEffect mount).

End ZoomableImage.

(** ** The uploader wired to [App]

    [App] passes [handleImageSelected] to the uploader as
    [onImageSelected]; the reader's [result] is cast to a string, so a
    failed read hands it null. *)

Module Upload.
Import JS Value Types GeminiService.

Section Flow.
Variable h : Host.
(** The message of the TypeError the engine throws for a method call on
    null. *)
Variable nullMessage : string.
Variable oracle : list GeminiRequest.part -> OracleOutcome.

(** [handleImageSelected] on what the uploader passes.  On null,
    [base64Image.replace] throws inside the [try] block of
    [analyzeHygrometer], ahead of the request; its [catch] block handles
    the TypeError as it handles a rejection. *)
Definition onImageSelected (result : option string) (st : App.AppModel)
  : App.AppModel :=
  match result with
  | Some base64 =>
    App.handleImageSelected h base64
      (oracle (GeminiRequest.parts base64 (App.trainingExamples st))) st
  | None =>
    App.handleImageSelected_settle h (Rejected (TypeError nullMessage))
      {| App.appState := ANALYZING;
         App.image := None;
         App.data := App.data st;
         App.errorMsg := None;
         App.trainingExamples := App.trainingExamples st;
         App.stored := App.stored st |}
  end.

(** A change event of the file input, through the read and the calls of
    [onImageSelected] it leads to: the uploader's [error] and the state
    of [App] afterwards. *)
Definition chooseFile (files : option ImageUploader.File)
  (o : ImageUploader.ReadOutcome) (error : option string)
  (st : App.AppModel) : option string * App.AppModel :=
  let (error', calls) := ImageUploader.handleFileChange files o error in
  (error', fold_left (fun a r => onImageSelected r a) calls st).

End Flow.

End Upload.

(** ** Invariants the statements are written with *)

Module Invariants.
Import JS Value Types.

(** The [hasChanged] test of the card's effect. *)
Definition hasChanged (initialData r : PsychrometricData) : bool :=
  gt (Math_abs (dryTemp r - dryTemp initialData)) 0.01
  || gt (Math_abs (wetTemp r - wetTemp initialData)) 0.01.

(** The card shows what its effect computes from the readings it
    holds. *)
Definition upToDate (h : Host) (initialData : PsychrometricData)
  (c : ResultCard.CardState) : Prop :=
  let r := ResultCard.readings c in
  if gt (wetTemp r) (dryTemp r)
  then ResultCard.validationError c = Some ResultCard.wetAboveDryMessage
  else
    ResultCard.validationError c = None
    /\ ResultCard.result c
       = {| measured := r;
            relativeHumidity :=
              Psychrometry.calculateHumidity h (dryTemp r) (wetTemp r);
            dewPoint :=
              Some (toFixed1_parseFloat
                      (Psychrometry.calculateDewPoint h (dryTemp r)
                         (Psychrometry.calculateHumidity h (dryTemp r)
                            (wetTemp r)))) |}
    /\ ResultCard.isCorrected c = hasChanged initialData r.

Definition cardUpToDate (h : Host) (s : Session.Session) : Prop :=
  match Session.card s with
  | Some (initialData, c) => upToDate h initialData c
  | None => True
  end.

(** The card is on screen only over a selected image. *)
Definition cardHasImage (s : Session.Session) : Prop :=
  match Session.card s with
  | Some _ =>
    exists img, App.image (Session.app s) = Some img /\ img <> EmptyString
  | None => True
  end.

(** An exemplar whose wet reading is not above its dry one. *)
Definition plausible (ex : TrainingExample) : bool :=
  negb (gt (correctedWet ex) (correctedDry ex)).

(** What each screen of [App] has to show. *)
Definition screenComplete (a : App.AppModel) : Prop :=
  match App.appState a with
  | IDLE => App.image a = None /\ App.data a = None /\ App.errorMsg a = None
  | ANALYZING =>
    App.image a <> None /\ App.data a = None /\ App.errorMsg a = None
  | SUCCESS =>
    App.image a <> None /\ App.data a <> None /\ App.errorMsg a = None
  | ERROR =>
    App.data a = None
    /\ exists m, App.errorMsg a = Some m /\ m <> EmptyString
  end.

(** The stored item is the text of the buffer. *)
Definition inSync (h : Host) (a : App.AppModel) : Prop :=
  App.stored a
  = Some (JSON_stringify h
            (JArr (map encodeExample (App.trainingExamples a)))).

(** The values [scale] takes. *)
Definition zoomLevels : list number := [1; 1.5; 2; 2.5; 3; 3.5; 4].

(** [scale] is on one of the seven levels, and the image is centred
    whenever it is shown in full. *)
Definition wellZoomed (st : ZoomableImage.ZoomState) : Prop :=
  In (ZoomableImage.scale st) zoomLevels /\
  (ZoomableImage.scale st = 1 ->
   ZoomableImage.position st = ZoomableImage.origin).

End Invariants.

(** ** More sample data *)

Module Cases.
Import JS Value Types GeminiService.
Local Open Scope string_scope.

(** A response the validation accepts. *)
Definition plainReading : string :=
  RefHost.requote "{'isPsychrometer':true,'dryTemp':20,'wetTemp':15}".

(** A session in which the user corrects the wet reading of that
    response. *)
Definition correction : list Session.Event :=
  [ Session.SelectImage Samples.photo (Responded (Some plainReading));
    Session.Edit ResultCard.F_wetTemp "15.2" ].

Definition snapshot : ImageUploader.File :=
  {| ImageUploader.type := "image/jpeg"; ImageUploader.size := 204800 |}.

Definition document : ImageUploader.File :=
  {| ImageUploader.type := "application/pdf"; ImageUploader.size := 1024 |}.

(** What V8 says when [replace] is read from null. *)
Definition nullMessageV8 : string :=
  "Cannot read properties of null (reading 'replace')".

Definition oracle (sent : list GeminiRequest.part) : OracleOutcome :=
  Responded (Some plainReading).

End Cases.

(** ** Accuracy of [Math.exp] on the scale *)

Module Accuracy.
Import JS.










End Accuracy.

(** * Properties *)

(** ** Facts about binary64 arithmetic

    Derived from the specification of the primitive operations
    ([FloatAxioms]) by case analysis on [Prim2SF]. *)

Module Binary64.
Import JS Notions.

(** [SFcompare] is an order on what is not NaN. *)
Lemma SFcompare_antisym (x y : spec_float) :
  SFcompare y x = option_map CompOpp (SFcompare x y).
Proof.
  destruct x as [sx|sx| |sx mx ex], y as [sy|sy| |sy my ey]; simpl;
    try destruct sx; try destruct sy; simpl; try reflexivity;
    rewrite (Z.compare_antisym ey ex);
    destruct (ey ?= ex)%Z; simpl; try reflexivity;
    rewrite (Pos.compare_cont_antisym mx my Eq); reflexivity.
Qed.

Lemma SFcompare_refl (x : spec_float) :
  x <> S754_nan -> SFcompare x x = Some Eq.
Proof.
  destruct x as [s|s| |s m e]; simpl; intros H; try congruence;
    destruct s; try reflexivity;
    rewrite Z.compare_refl, Pos.compare_cont_refl; reflexivity.
Qed.

Lemma SFcompare_Some (x y : spec_float) :
  x <> S754_nan -> y <> S754_nan -> exists c, SFcompare x y = Some c.
Proof.
  destruct x as [sx|sx| |sx mx ex], y as [sy|sy| |sy my ey]; simpl;
    intros Hx Hy; try congruence; eexists; reflexivity.
Qed.

Lemma is_nan_Prim2SF (x : float) :
  is_nan x = match Prim2SF x with S754_nan => true | _ => false end.
Proof.
  unfold is_nan. rewrite eqb_spec. unfold SFeqb.
  destruct (Prim2SF x) as [s|s| |s m e] eqn:E; try reflexivity.
  - destruct s; reflexivity.
  - rewrite SFcompare_refl by discriminate. reflexivity.
Qed.

Lemma is_nan_false (x : float) : is_nan x = false <-> Prim2SF x <> S754_nan.
Proof.
  rewrite is_nan_Prim2SF. destruct (Prim2SF x); split; congruence.
Qed.

Lemma is_nan_true (x : float) : is_nan x = true -> x = nan.
Proof.
  rewrite is_nan_Prim2SF. intros H. apply Prim2SF_inj.
  destruct (Prim2SF x); try discriminate. reflexivity.
Qed.

(** Order facts on numbers that are not NaN. *)
Section Order.
Variables x y : float.
Hypothesis Hx : is_nan x = false.
Hypothesis Hy : is_nan y = false.

Lemma leb_refl : (x <=? x) = true.
Proof.
  rewrite leb_spec. unfold SFleb.
  rewrite SFcompare_refl; [reflexivity | now apply is_nan_false].
Qed.

Lemma ltb_leb : (x <? y) = true -> (x <=? y) = true.
Proof.
  rewrite ltb_spec, leb_spec. unfold SFltb, SFleb.
  destruct (SFcompare (Prim2SF x) (Prim2SF y)) as [[]|]; congruence.
Qed.

Lemma not_ltb_leb : (y <? x) = false -> (x <=? y) = true.
Proof.
  rewrite ltb_spec, leb_spec. unfold SFltb, SFleb.
  rewrite (SFcompare_antisym (Prim2SF x) (Prim2SF y)).
  destruct (SFcompare_Some (Prim2SF x) (Prim2SF y)) as [c Hc];
    try now apply is_nan_false.
  rewrite Hc. destruct c; simpl; congruence.
Qed.
End Order.

(** [Math.min] and [Math.max] pick one of their arguments and bound
    both. *)
Lemma Math_min_spec (a x : float) :
  is_nan a = false -> is_nan x = false ->
  (Math_min a x = a \/ Math_min a x = x) /\
  (Math_min a x <=? a) = true /\ (Math_min a x <=? x) = true.
Proof.
  intros Ha Hx. unfold Math_min. rewrite Ha, Hx. simpl.
  destruct (a <? x) eqn:Hax.
  - repeat split; auto using leb_refl, ltb_leb.
  - destruct (x <? a) eqn:Hxa.
    + repeat split; auto using leb_refl, ltb_leb.
    + destruct (get_sign a); repeat split; auto using leb_refl, not_ltb_leb.
Qed.

Lemma Math_max_spec (a x : float) :
  is_nan a = false -> is_nan x = false ->
  (Math_max a x = a \/ Math_max a x = x) /\
  (a <=? Math_max a x) = true /\ (x <=? Math_max a x) = true.
Proof.
  intros Ha Hx. unfold Math_max. rewrite Ha, Hx. simpl.
  destruct (a <? x) eqn:Hax.
  - repeat split; auto using leb_refl, ltb_leb.
  - destruct (x <? a) eqn:Hxa.
    + repeat split; auto using leb_refl, ltb_leb.
    + destruct (get_sign a); repeat split; auto using leb_refl, not_ltb_leb.
Qed.

Lemma clamp_nan (x : float) : is_nan x = true -> clamp x = nan.
Proof.
  intros H. apply is_nan_true in H. subst x. reflexivity.
Qed.

Lemma clamp_range (x : float) :
  is_nan x = false ->
  is_nan (clamp x) = false /\
  (0 <=? clamp x) = true /\ (clamp x <=? 100) = true.
Proof.
  intros Hx. unfold clamp.
  destruct (Math_min_spec 100 x eq_refl Hx) as ([E|E] & H1 & H2).
  - rewrite E. vm_compute. auto.
  - rewrite E in *.
    destruct (Math_max_spec 0 x eq_refl Hx) as ([E'|E'] & H3 & H4).
    + rewrite E'. vm_compute. auto.
    + rewrite E' in *. auto.
Qed.

(** A number between 0 and 100 is at most 1000 tenths, and every such
    count of tenths reads back as a number between 0 and 100. *)
Lemma digits2_pos_bound (m : positive) :
  (Zpos m < 2 ^ Zpos (digits2_pos m))%Z.
Proof.
  induction m as [m IH|m IH|]; simpl digits2_pos.
  - rewrite Pos2Z.inj_succ, Z.pow_succ_r by lia. lia.
  - rewrite Pos2Z.inj_succ, Z.pow_succ_r by lia. lia.
  - reflexivity.
Qed.

Lemma valid_mantissa (s : bool) (m : positive) (e : Z) :
  valid_binary (S754_finite s m e) = true ->
  (Zpos m < 2 ^ 53)%Z.
Proof.
  intros H. unfold SpecFloat.valid_binary, SpecFloat.bounded,
    SpecFloat.canonical_mantissa, SpecFloat.fexp in H.
  apply andb_prop in H. destruct H as [H _].
  apply Z.eqb_eq in H.
  assert (D : (Zpos (digits2_pos m) <= 53)%Z) by (unfold prec in H; lia).
  eapply Z.lt_le_trans; [apply digits2_pos_bound|].
  apply Z.pow_le_mono_r; lia.
Qed.

Lemma tenths_range (m : positive) (e : Z) :
  (Zpos m < 2 ^ 53)%Z ->
  SFleb (S754_finite false m e)
        (S754_finite false 7036874417766400 (-46)) = true ->
  (0 <= tenths m e <= 1000)%Z.
Proof.
  intros Hm. unfold SFleb, SFcompare.
  rewrite Pos.compare_cont_spec. unfold Pos.switch_Eq.
  destruct (e ?= -46)%Z eqn:He; try discriminate.
  - apply Z.compare_eq in He. subst e. intros H.
    assert (Hle : (Zpos m <= 7036874417766400)%Z).
    { destruct (Pos.compare m 7036874417766400) eqn:C; try discriminate.
      - apply Pos.compare_eq in C. rewrite C. reflexivity.
      - apply Pos.compare_lt_iff in C. apply Z.lt_le_incl. exact C. }
    unfold tenths. split.
    + apply Z.div_pos; [|reflexivity].
      apply Z.add_nonneg_nonneg; [apply Z.mul_nonneg_nonneg|]; discriminate.
    + apply Z.lt_succ_r. apply Z.div_lt_upper_bound; [reflexivity|].
      change (2 ^ (46 + 1))%Z with 140737488355328%Z.
      change (2 ^ 46)%Z with 70368744177664%Z. lia.
  - intros _. rewrite Z.compare_lt_iff in He.
    destruct e as [|p|p]; try lia.
    unfold tenths.
    assert (Hp : (47 <= Zpos p)%Z) by lia.
    assert (P : (0 < 2 ^ Zpos p)%Z) by (apply Z.pow_pos_nonneg; lia).
    assert (Q : (2 ^ 48 <= 2 ^ (Zpos p + 1))%Z)
      by (apply Z.pow_le_mono_r; lia).
    assert (R : (2 ^ (Zpos p + 1) = 2 * 2 ^ Zpos p)%Z)
      by (rewrite Z.pow_add_r by lia; lia).
    split.
    + apply Z.div_pos; lia.
    + apply Z.lt_succ_r. apply Z.div_lt_upper_bound; [lia|].
      change (2 ^ 53)%Z with (32 * 2 ^ 48)%Z in Hm. lia.
Qed.

Lemma of_tenths_range (n : Z) :
  (0 <= n <= 1000)%Z ->
  is_nan (of_tenths false n) = false /\
  (0 <=? of_tenths false n) = true /\ (of_tenths false n <=? 100) = true.
Proof.
  intros Hn.
  assert (A : forallb tenths_ok (seq 0 1001) = true)
    by (vm_compute; reflexivity).
  rewrite forallb_forall in A.
  specialize (A (Z.to_nat n)).
  unfold tenths_ok in A. rewrite Z2Nat.id in A by lia.
  assert (I : In (Z.to_nat n) (seq 0 1001)) by (apply in_seq; lia).
  apply A in I. apply andb_prop in I. destruct I as [I I3].
  apply andb_prop in I. destruct I as [I1 I2].
  apply negb_true_iff in I1. auto.
Qed.

Lemma toFixed1_range (c : float) :
  (0 <=? c) = true -> (c <=? 100) = true ->
  is_nan (toFixed1_parseFloat c) = false /\
  (0 <=? toFixed1_parseFloat c) = true /\
  (toFixed1_parseFloat c <=? 100) = true.
Proof.
  intros H0 H100. unfold toFixed1_parseFloat.
  pose proof (Prim2SF_valid c) as V.
  pose proof (abs_spec c) as Ab.
  rewrite leb_spec in H0, H100.
  replace (Prim2SF 0) with (S754_zero false) in H0 by reflexivity.
  replace (Prim2SF 100)
    with (S754_finite false 7036874417766400 (-46)) in H100
    by (vm_compute; reflexivity).
  rewrite (leb_spec 1e21 (abs c)), Ab.
  destruct (Prim2SF c) as [s|s| |s m e].
  - vm_compute. auto.
  - destruct s; discriminate.
  - discriminate.
  - destruct s; [discriminate|].
    apply valid_mantissa in V.
    pose proof (tenths_range m e V H100) as T.
    replace (SFleb (Prim2SF 1e21) (SFabs (S754_finite false m e))) with false.
    + apply of_tenths_range; assumption.
    + assert (He : (e <= -46)%Z).
      { unfold SFleb, SFcompare in H100.
        destruct (e ?= -46)%Z eqn:C; try discriminate.
        - apply Z.compare_eq in C. lia.
        - rewrite Z.compare_lt_iff in C. lia. }
      set (k := Prim2SF 1e21). vm_compute in k. subst k.
      unfold SFabs, SFleb, SFcompare.
      destruct (17 ?= e)%Z eqn:C; try reflexivity.
      * apply Z.compare_eq in C. lia.
      * rewrite Z.compare_lt_iff in C. lia.
Qed.

(** Clamping to [0, 100] and rounding to one decimal: NaN stays NaN,
    anything else ends between 0 and 100. *)
Lemma clamp_toFixed1_cases (x : float) :
  let r := toFixed1_parseFloat (clamp x) in
  if is_nan x
  then r = nan
  else is_nan r = false /\ (0 <=? r) = true /\ (r <=? 100) = true.
Proof.
  destruct (is_nan x) eqn:N; cbv zeta.
  - rewrite (clamp_nan _ N). reflexivity.
  - destruct (clamp_range _ N) as (_ & H0 & H100).
    apply toFixed1_range; assumption.
Qed.

(** Exact cases of subtraction and division: [x / x], [x - 0] and
    [t - t]. *)
Lemma div_eucl_mul_pow (m : positive) :
  Z.div_eucl (Zpos m * 2 ^ 53) (Zpos m) = (2 ^ 53, 0)%Z.
Proof.
  pose proof (Z.div_mul (2 ^ 53) (Zpos m) ltac:(lia)) as Q.
  pose proof (Z.mod_mul (2 ^ 53) (Zpos m) ltac:(lia)) as R.
  rewrite Z.mul_comm in Q, R.
  unfold Z.div in Q. unfold Z.modulo in R.
  destruct (Z.div_eucl (Zpos m * 2 ^ 53) (Zpos m)) as [q r].
  cbv beta iota in Q, R. subst q r. reflexivity.
Qed.

Lemma SFdiv_core_self (m : positive) (e : Z) :
  SFdiv_core_binary prec emax (Zpos m) e (Zpos m) e
  = (2 ^ 53, -53, loc_Exact)%Z.
Proof.
  unfold SFdiv_core_binary.
  rewrite !Z.sub_diag.
  set (k := Z.min (fexp prec emax 0) 0). vm_compute in k. subst k.
  replace (0 - -53)%Z with 53%Z by reflexivity. cbv iota.
  rewrite Z.shiftl_mul_pow2 by lia.
  rewrite (div_eucl_mul_pow m).
  unfold new_location, new_location_even, new_location_odd.
  destruct (Z.even (Zpos m)); reflexivity.
Qed.

Lemma div_self (x : float) (s : bool) (m : positive) (e : Z) :
  Prim2SF x = S754_finite s m e -> x / x = 1.
Proof.
  intros E. apply Prim2SF_inj. rewrite div_spec, E.
  unfold SF64div, SFdiv. rewrite SFdiv_core_self, xorb_nilpotent.
  vm_compute. reflexivity.
Qed.

Lemma sub_zero (x : float) (s : bool) (m : positive) (e : Z) :
  Prim2SF x = S754_finite s m e -> x - 0 = x.
Proof.
  intros E. apply Prim2SF_inj. rewrite sub_spec, E. reflexivity.
Qed.

Lemma sub_self_SF (a : spec_float) :
  match a with S754_zero _ | S754_finite _ _ _ => True | _ => False end ->
  SF64sub a a = S754_zero false.
Proof.
  destruct a as [s|s| |s m e]; intros H; try contradiction.
  - destruct s; reflexivity.
  - unfold SF64sub, SFsub. rewrite Z.sub_diag. reflexivity.
Qed.

(** Classification of a number by its [Prim2SF] image. *)
Lemma is_zero_of_SF (z : float) (s : bool) :
  Prim2SF z = S754_zero s -> is_zero z = true.
Proof.
  intros E. unfold is_zero. rewrite eqb_spec, E. reflexivity.
Qed.

Lemma is_finite_SF (x : float) :
  is_finite x = true ->
  match Prim2SF x with
  | S754_zero _ | S754_finite _ _ _ => True
  | _ => False
  end.
Proof.
  unfold is_finite, is_infinity. rewrite is_nan_Prim2SF, eqb_spec, abs_spec.
  destruct (Prim2SF x) as [s|s| |s m e]; simpl; auto; discriminate.
Qed.

Lemma finite_nonzero_SF (x : float) :
  is_finite x = true -> is_zero x = false ->
  exists s m e, Prim2SF x = S754_finite s m e.
Proof.
  intros F Z. apply is_finite_SF in F.
  destruct (Prim2SF x) as [s|s| |s m e] eqn:E; try contradiction.
  - apply is_zero_of_SF in E. congruence.
  - eauto.
Qed.

Lemma sub_self (t : float) : is_finite t = true -> t - t = 0.
Proof.
  intros F. apply Prim2SF_inj. rewrite sub_spec.
  apply sub_self_SF, is_finite_SF, F.
Qed.


End Binary64.

(** ** The calculator *)

Module CalculatorFacts.
Import JS Notions Binary64 Psychrometry.

(** The Magnus exponent has a pole at -243.5: the quotient is -Infinity
    there, whose exponential is +0 for every [Math]. *)
Lemma saturation_at_pole (M : Math) :
  getSaturationVaporPressure M (-243.5) = 0.
Proof.
  unfold getSaturationVaporPressure.
  replace ((17.67 * -243.5) / (-243.5 + 243.5)) with neg_infinity
    by (vm_compute; reflexivity).
  rewrite Math_exp_ninf. vm_compute. reflexivity.
Qed.

Lemma calculateHumidity_at_pole (M : Math) :
  calculateHumidity M (-243.5) (-243.5) = nan.
Proof.
  unfold calculateHumidity, rawHumidity.
  rewrite saturation_at_pole. vm_compute. reflexivity.
Qed.

(** C1, as far as the code keeps it.  [calculateHumidity] is a total
    function (no operation in it can throw), and its result lies
    between 0 and 100 whenever the unclamped ratio [rawHumidity] is a
    number.  The clamp, written to keep every result between 0 and
    100, misses NaN: when the ratio is NaN the result is NaN. *)
Theorem calculateHumidity_range (M : Math) (dryTemp wetTemp : number) :
  let r := calculateHumidity M dryTemp wetTemp in
  if is_nan (rawHumidity M dryTemp wetTemp)
  then r = nan
  else is_nan r = false /\ (0 <=? r) = true /\ (r <=? 100) = true.
Proof.
  unfold calculateHumidity.
  fold (clamp (rawHumidity M dryTemp wetTemp)).
  pose proof (clamp_toFixed1_cases (rawHumidity M dryTemp wetTemp)) as C.
  cbv zeta in *.
  destruct (is_nan (rawHumidity M dryTemp wetTemp)); exact C.
Qed.

(** C1 is broken by the code at [dryTemp = wetTemp = -243.5], the pole
    of the Magnus exponent: both saturation pressures are 0, the ratio
    is 0/0, [Math.min(100, Math.max(0, rh))] returns NaN, and the result
    is NaN under every [Math]. *)
Lemma calculateHumidity_out_of_range :
  ~ exists M : Math,
      let r := calculateHumidity M (-243.5) (-243.5) in
      (0 <=? r) = true /\ (r <=? 100) = true.
Proof.
  intros [M [H _]]. rewrite calculateHumidity_at_pole in H. discriminate H.
Qed.

(** C7, as amended.  For every finite temperature at which the
    saturation vapour pressure evaluates to a finite number other than
    zero, equal dry-bulb and wet-bulb readings give exactly 100. *)
Theorem calculateHumidity_saturated (M : Math) (t : number) :
  is_finite t = true ->
  is_finite (getSaturationVaporPressure M t) = true ->
  is_zero (getSaturationVaporPressure M t) = false ->
  calculateHumidity M t t = 100.
Proof.
  intros Ft Fe Ze.
  destruct (finite_nonzero_SF _ Fe Ze) as (s & m & e & E).
  unfold calculateHumidity, rawHumidity.
  rewrite (sub_self t Ft).
  replace (0.0007947 * 1013.25 * 0) with 0 by (vm_compute; reflexivity).
  rewrite (sub_zero _ s m e E), (div_self _ s m e E).
  vm_compute. reflexivity.
Qed.

(** The hypotheses of C7 hold at 20 degrees on the reference host. *)
Lemma calculateHumidity_saturated_witness :
  calculateHumidity Reference.math 20 20 = 100.
Proof.
  apply calculateHumidity_saturated; vm_compute; reflexivity.
Defined.

(** C7 as stated fails at [t = -243.5], where the result is NaN under
    every [Math]. *)
Lemma calculateHumidity_not_saturated_at_pole :
  ~ exists M : Math, calculateHumidity M (-243.5) (-243.5) = 100.
Proof.
  intros [M H]. rewrite calculateHumidity_at_pole in H.
  apply (f_equal is_nan) in H. discriminate H.
Qed.


(** Rounding can even reverse the order of the exponent arguments of two
    neighbouring numbers. *)
Lemma magnus_argument_decreases :
  let t1 := 55.460000000000001 in
  let t2 := 55.460000000000008 in
  (t1 <? t2) = true /\
  ((17.67 * t2) / (t2 + 243.5) <? (17.67 * t1) / (t1 + 243.5)) = true.
Proof. vm_compute. auto. Qed.

End CalculatorFacts.

(** ** The exemplar store *)

Module AppFacts.
Import JS Value Types GeminiService App.
Local Open Scope string_scope.

Lemma slice_last_length {A} (n : nat) (xs : list A) :
  List.length (slice_last n xs) <= n.
Proof.
  unfold slice_last. rewrite length_skipn. lia.
Qed.

Lemma handleLearn_examples (h : Host) (now_id now_ts : Z) (dry wet : number)
  (st : AppModel) :
  trainingExamples (handleLearn h now_id now_ts dry wet st)
  = match image st with
    | Some img =>
      if String.eqb img "" then trainingExamples st
      else slice_last 3
             (trainingExamples st ++
              [{| id := Z_toString now_id; timestamp := now_ts;
                  imageUrl := img;
                  correctedDry := dry; correctedWet := wet |}])
    | None => trainingExamples st
    end.
Proof.
  unfold handleLearn. destruct (image st) as [img|]; [|reflexivity].
  destruct (String.eqb img ""); reflexivity.
Qed.

Lemma handleLearn_image (h : Host) (now_id now_ts : Z) (dry wet : number)
  (st : AppModel) :
  image (handleLearn h now_id now_ts dry wet st) = image st.
Proof.
  unfold handleLearn. destruct (image st) as [img|] eqn:E; [|assumption].
  destruct (String.eqb img ""); [assumption|reflexivity].
Qed.

Lemma handleLearn_bounded (h : Host) (now_id now_ts : Z) (dry wet : number)
  (st : AppModel) :
  List.length (trainingExamples st) <= 3 ->
  List.length (trainingExamples (handleLearn h now_id now_ts dry wet st)) <= 3.
Proof.
  intros B. rewrite handleLearn_examples.
  destruct (image st) as [img|]; [|assumption].
  destruct (String.eqb img ""); [assumption|apply slice_last_length].
Qed.

Lemma handleLearn_present (h : Host) (c : LearnCall) (img : string)
  (st : AppModel) :
  image st = Some img -> img <> "" ->
  trainingExamples
    (handleLearn h (at_id c) (at_ts c) (learnedDry c) (learnedWet c) st)
  = slice_last 3 (trainingExamples st ++ [exampleOf img c]).
Proof.
  intros I N. rewrite handleLearn_examples, I.
  apply String.eqb_neq in N. rewrite N. reflexivity.
Qed.

Lemma learnAll_bounded (h : Host) (calls : list LearnCall) :
  forall st : AppModel,
    List.length (trainingExamples st) <= 3 ->
    List.length (trainingExamples (learnAll h calls st)) <= 3.
Proof.
  induction calls as [|c calls IH]; intros st B; simpl.
  - exact B.
  - apply IH. apply handleLearn_bounded. exact B.
Qed.

(** C2.  Starting from a buffer of at most three exemplars, any sequence
    of [handleLearn] calls leaves at most three; and four calls on an
    empty buffer, with an image selected, leave exactly the exemplars of
    the second, third and fourth call, in that order. *)
Theorem exemplar_buffer_capacity (h : Host) (st : AppModel)
  (calls : list LearnCall) :
  List.length (trainingExamples st) <= 3 ->
  List.length (trainingExamples (learnAll h calls st)) <= 3 /\
  (forall (img : string) (c1 c2 c3 c4 : LearnCall),
      image st = Some img -> img <> "" -> trainingExamples st = [] ->
      trainingExamples (learnAll h [c1; c2; c3; c4] st)
      = [exampleOf img c2; exampleOf img c3; exampleOf img c4]).
Proof.
  intros B. split; [apply learnAll_bounded, B|].
  intros img c1 c2 c3 c4 I N E. unfold learnAll. simpl fold_left.
  repeat (rewrite (handleLearn_present h _ img);
          [ | rewrite ?handleLearn_image; assumption | assumption ]).
  rewrite E. reflexivity.
Qed.

End AppFacts.

(** ** The review card *)

Module CardFacts.
Import JS Value Types Psychrometry ResultCard Notions.
Local Open Scope string_scope.

Lemma recalculate_readings (h : Host) (init : PsychrometricData)
  (st : CardState) :
  readings (fst (recalculate h init st)) = readings st.
Proof.
  unfold recalculate.
  destruct (gt (wetTemp (readings st)) (dryTemp (readings st))); reflexivity.
Qed.

Lemma recalculate_settled (h : Host) (init : PsychrometricData)
  (st : CardState) :
  settled (fst (recalculate h init st)).
Proof.
  unfold settled. rewrite recalculate_readings. unfold recalculate.
  destruct (gt (wetTemp (readings st)) (dryTemp (readings st))); simpl; auto.
Qed.

Lemma edit_settled (h : Host) (init : PsychrometricData) (f : field)
  (value : string) (st : CardState) :
  settled st -> settled (edit h init f value st).
Proof.
  intros S. unfold edit.
  destruct (handleChange h f value st); [apply recalculate_settled|exact S].
Qed.

Lemma handleLearnClick_settled (st : CardState) :
  settled st -> settled (fst (handleLearnClick st)).
Proof.
  unfold handleLearnClick.
  destruct (truthy_string (validationError st)); intros S; exact S.
Qed.

Lemma afterEdits_settled (h : Host) (init : PsychrometricData)
  (edits : list (field * string)) :
  settled (afterEdits h init edits).
Proof.
  unfold afterEdits.
  assert (G : forall st, settled st ->
            settled (fold_left (fun st e => edit h init (fst e) (snd e) st)
                               edits st)).
  { induction edits as [|e edits IH]; intros st S; simpl; [exact S|].
    apply IH, edit_settled, S. }
  apply G. apply recalculate_settled.
Qed.

(** What a settled card with the wet bulb above the dry bulb shows and
    does. *)
Lemma settled_wet_above_dry (h : Host) (init : PsychrometricData)
  (st : CardState) :
  settled st ->
  gt (wetTemp (readings st)) (dryTemp (readings st)) = true ->
  validationError st = Some wetAboveDryMessage /\
  shownHumidity st = None /\
  shownDewPoint st = None /\
  learnButtonShown st = false /\
  snd (recalculate h init st) = [] /\
  handleLearnClick st = (st, None).
Proof.
  unfold settled. intros S G. rewrite G in S. destruct S as (V & _ & _).
  unfold shownHumidity, shownDewPoint, learnButtonShown, handleLearnClick,
    recalculate.
  rewrite V, G. simpl. rewrite !andb_false_r. auto 6.
Qed.

(** C10.  An edit whose text is empty, a lone minus sign, or read as
    NaN by [parseFloat] makes no state update: the card, its readings and
    its result stay as they were. *)
Theorem handleChange_ignores_non_numbers (h : Host)
  (init : PsychrometricData) (f : field) (value : string) (st : CardState) :
  value = "" \/ value = "-" \/ isNaN (parseFloat h value) = true ->
  handleChange h f value st = None /\ edit h init f value st = st.
Proof.
  intros H.
  assert (N : handleChange h f value st = None).
  { unfold handleChange. destruct H as [H|[H|H]].
    - subst value. reflexivity.
    - subst value. reflexivity.
    - rewrite H. destruct (String.eqb value "" || String.eqb value "-");
        reflexivity. }
  split; [exact N|]. unfold edit. rewrite N. reflexivity.
Qed.

End CardFacts.

Module SessionFacts.
Import JS Value Types GeminiService Notions CardFacts.
Import Session.

Lemma render_settled (h : Host) (a : App.AppModel) :
  card_settled {| app := a; card := render h a |}.
Proof.
  unfold card_settled, render. simpl.
  destruct (App.appState a); try exact I.
  destruct (App.data a) as [d|]; try exact I.
  destruct (App.image a) as [img|]; try exact I.
  destruct (truthy d && negb (String.eqb img "")); try exact I.
  destruct (asPsychrometricData d) as [init|]; try exact I.
  apply recalculate_settled.
Qed.

Lemma step_settled (h : Host) (s : Session.Session) (ev : Event) :
  card_settled s -> card_settled (step h s ev).
Proof.
  intros S. destruct ev as [base64 o| |f value|now_id now_ts|base64|o]; simpl.
  - destruct (App.appState (app s)); try exact S. apply render_settled.
  - destruct (App.appState (app s)); try exact S; exact I.
  - unfold card_settled in S.
    destruct (card s) as [[init c]|] eqn:E.
    + unfold card_settled. simpl. apply edit_settled, S.
    + unfold card_settled. rewrite E. exact I.
  - unfold card_settled in S.
    destruct (card s) as [[init c]|] eqn:E.
    + destruct (ResultCard.learnButtonShown c).
      * pose proof (handleLearnClick_settled c S) as S'.
        destruct (ResultCard.handleLearnClick c) as [c' [[dry wet]|]];
          unfold card_settled; simpl; [|exact S'].
        destruct (App.handleLearn_throws h now_id now_ts dry wet (app s));
          [exact S | exact S'].
      * unfold card_settled. rewrite E. exact S.
    + unfold card_settled. rewrite E. exact I.
  - destruct (App.appState (app s)); try exact S. apply render_settled.
  - destruct (App.appState (app s)); try exact S. apply render_settled.
Qed.

Lemma run_settled (h : Host) (evs : list Event) :
  forall s : Session.Session, card_settled s -> card_settled (run h s evs).
Proof.
  unfold run. induction evs as [|ev evs IH]; intros s S; simpl; [exact S|].
  apply IH, step_settled, S.
Qed.

(** C3.  In every state a session reaches in which the card shows
    readings with the wet bulb above the dry bulb: the validation error
    is set, the humidity figure and the dew point are not shown, the
    effect for these readings calls neither calculator function,
    [handleLearnClick] returns without calling [onLearn], and the learn
    event leaves the session, its exemplars included, unchanged. *)
Theorem wet_above_dry_blocks_session (h : Host) (s0 : Session.Session)
  (evs : list Event) (init : PsychrometricData) (c : ResultCard.CardState) :
  card s0 = None ->
  card (run h s0 evs) = Some (init, c) ->
  gt (wetTemp (ResultCard.readings c)) (dryTemp (ResultCard.readings c))
  = true ->
  ResultCard.validationError c = Some ResultCard.wetAboveDryMessage /\
  ResultCard.shownHumidity c = None /\
  ResultCard.shownDewPoint c = None /\
  snd (ResultCard.recalculate h init c) = [] /\
  ResultCard.handleLearnClick c = (c, None) /\
  forall now_id now_ts : Z,
    step h (run h s0 evs) (LearnClick now_id now_ts) = run h s0 evs.
Proof.
  intros C0 C G.
  assert (S : card_settled (run h s0 evs)).
  { apply run_settled. unfold card_settled. rewrite C0. exact I. }
  unfold card_settled in S. rewrite C in S.
  destruct (settled_wet_above_dry h init c S G) as (V & SH & SD & B & T & L).
  repeat split; try assumption.
  intros now_id now_ts. simpl. rewrite C, B. reflexivity.
Qed.

Lemma step_buffer_bounded (h : Host) (s : Session.Session) (ev : Event) :
  List.length (App.trainingExamples (app s)) <= 3 ->
  List.length (App.trainingExamples (app (step h s ev))) <= 3.
Proof.
  intros B. destruct ev as [base64 o| |f value|now_id now_ts|base64|o]; simpl.
  - destruct (App.appState (app s)); try exact B. simpl.
    unfold App.handleImageSelected, App.handleImageSelected_settle.
    destruct (analyzeHygrometer h o); exact B.
  - destruct (App.appState (app s)); exact B.
  - destruct (card s) as [[init c]|]; exact B.
  - destruct (card s) as [[init c]|]; [|exact B].
    destruct (ResultCard.learnButtonShown c); [|exact B].
    destruct (ResultCard.handleLearnClick c) as [c' [[dry wet]|]];
      [|exact B].
    simpl. apply AppFacts.handleLearn_bounded, B.
  - destruct (App.appState (app s)); exact B.
  - destruct (App.appState (app s)); try exact B. simpl.
    unfold App.handleImageSelected_settle.
    destruct (analyzeHygrometer h o); exact B.
Qed.

(** Whatever the user does, a buffer of at most three exemplars stays
    one. *)
Lemma session_buffer_bounded (h : Host) (evs : list Event) :
  forall s : Session.Session,
    List.length (App.trainingExamples (app s)) <= 3 ->
    List.length (App.trainingExamples (app (run h s evs))) <= 3.
Proof.
  unfold run. induction evs as [|ev evs IH]; intros s B; simpl; [exact B|].
  apply IH, step_buffer_bounded, B.
Qed.

End SessionFacts.

(** ** The extraction adapter and the session's reaction *)

Module ServiceFacts.
Import JS Value Types GeminiService App.
Local Open Scope string_scope.

Lemma get_field (fields : list (string * jsval)) (k : string) (v : jsval) :
  lookup k fields = Some v -> get (JObj fields) k = Normal v.
Proof.
  intros L. unfold get. rewrite L. reflexivity.
Qed.

(** C4.  When the response parses to an object whose [isPsychrometer]
    is [false], [analyzeHygrometer] throws the not-a-psychrometer error
    and [handleImageSelected] goes from ANALYZING to ERROR with that
    message; SUCCESS is not visited and no card is rendered. *)
Theorem not_a_psychrometer_is_an_error (h : Host) (text base64 : string)
  (fields : list (string * jsval)) (st : AppModel) :
  text <> "" ->
  JSON_parse h text = Normal (JObj fields) ->
  lookup "isPsychrometer" fields = Some (JBool false) ->
  let o := Responded (Some text) in
  analyzeHygrometer h o = Throw (Error notFoundMessage) /\
  appState (handleImageSelected h base64 o st) = ERROR /\
  errorMsg (handleImageSelected h base64 o st) = Some notFoundMessage /\
  statesVisited h base64 o st = [ANALYZING; ERROR] /\
  Session.card (Session.step h {| Session.app := st; Session.card := None |}
                             (Session.SelectImage base64 o)) = None.
Proof.
  intros N P L o.
  assert (A : analyzeHygrometer h o = Throw (Error notFoundMessage)).
  { unfold analyzeHygrometer, analyzeHygrometer_try, o.
    apply String.eqb_neq in N. rewrite N, P. simpl.
    rewrite L. reflexivity. }
  assert (S : handleImageSelected h base64 o st
              = {| appState := ERROR; image := Some base64; data := data st;
                   errorMsg := Some notFoundMessage;
                   trainingExamples := trainingExamples st;
                   stored := stored st |}).
  { unfold handleImageSelected, handleImageSelected_settle. rewrite A.
    reflexivity. }
  repeat split.
  - exact A.
  - rewrite S. reflexivity.
  - rewrite S. reflexivity.
  - unfold statesVisited. rewrite S. reflexivity.
  - simpl. destruct (appState st); try reflexivity.
    unfold Session.render. rewrite S. reflexivity.
Qed.

(** C6.  A response with [isPsychrometer] true, numeric [dryTemp] and
    [wetTemp], and the wet bulb above the dry bulb is returned as parsed,
    both temperatures as received, and the session reaches SUCCESS with
    it. *)
Theorem wet_above_dry_is_passed_through (h : Host) (text base64 : string)
  (fields : list (string * jsval)) (d w : number) (st : AppModel) :
  text <> "" ->
  JSON_parse h text = Normal (JObj fields) ->
  lookup "isPsychrometer" fields = Some (JBool true) ->
  lookup "dryTemp" fields = Some (JNum d) ->
  lookup "wetTemp" fields = Some (JNum w) ->
  gt w d = true ->
  let o := Responded (Some text) in
  analyzeHygrometer h o = Normal (JObj fields) /\
  get (JObj fields) "dryTemp" = Normal (JNum d) /\
  get (JObj fields) "wetTemp" = Normal (JNum w) /\
  data (handleImageSelected h base64 o st) = Some (JObj fields) /\
  appState (handleImageSelected h base64 o st) = SUCCESS.
Proof.
  intros N P L Ld Lw G o.
  assert (A : analyzeHygrometer h o = Normal (JObj fields)).
  { unfold analyzeHygrometer, analyzeHygrometer_try, o.
    apply String.eqb_neq in N. rewrite N, P. simpl.
    rewrite L. reflexivity. }
  repeat split.
  - exact A.
  - apply get_field, Ld.
  - apply get_field, Lw.
  - unfold handleImageSelected, handleImageSelected_settle. rewrite A.
    reflexivity.
  - unfold handleImageSelected, handleImageSelected_settle. rewrite A.
    reflexivity.
Qed.

(** C9, as far as the code keeps it.  When there is no record, an empty
    one, or one that [JSON.parse] rejects, the load effect leaves the
    exemplar buffer empty, and the header renders without the badge and
    without failing. *)
Theorem loadEffect_tolerates (h : Host) (saved : option string) :
  saved = None \/ saved = Some "" \/
  (exists s e, saved = Some s /\ JSON_parse h s = Throw e) ->
  loadEffect h saved (JArr []) = JArr [] /\
  headerShowsBadge (loadEffect h saved (JArr [])) = Normal false.
Proof.
  intros H.
  assert (E : loadEffect h saved (JArr []) = JArr []).
  { destruct H as [H|[H|(s & e & H & P)]]; subst saved; try reflexivity.
    unfold loadEffect. rewrite P. destruct (negb (String.eqb s ""));
      reflexivity. }
  rewrite E. split; reflexivity.
Qed.

(** C9 on a record cut short, which [JSON.parse] rejects. *)
Lemma loadEffect_tolerates_witness :
  loadEffect Reference.host (Some "{oops") (JArr []) = JArr [] /\
  headerShowsBadge (loadEffect Reference.host (Some "{oops") (JArr []))
  = Normal false.
Proof.
  apply (loadEffect_tolerates Reference.host (Some "{oops")).
  right. right. eexists. eexists.
  split; [reflexivity | vm_compute; reflexivity].
Defined.

(** C9 is broken by the code on a record that is valid JSON without
    being a list.  The [try] around [JSON.parse] catches text that does
    not parse and nothing else: under every host the stored text [null]
    is parsed and kept as the exemplar buffer, and reading its [length]
    for the header throws. *)
Lemma loadEffect_keeps_parsed_null :
  ~ exists h : Host,
      loadEffect h (Some "null") (JArr []) = JArr [] \/
      headerShowsBadge (loadEffect h (Some "null") (JArr []))
      = Normal false.
Proof.
  intros [h H].
  assert (E : loadEffect h (Some "null") (JArr []) = JNull).
  { unfold loadEffect. simpl. rewrite JSON_parse_null. reflexivity. }
  rewrite E in H. destruct H as [H|H]; discriminate H.
Qed.

End ServiceFacts.

(** ** The dew point at zero humidity *)

Module DewPointFacts.
Import JS Value Types Binary64 Psychrometry ResultCard Notions Samples.

Lemma add_neg_infinity (x : float) :
  x + neg_infinity = neg_infinity \/ x + neg_infinity = nan.
Proof.
  destruct (Prim2SF x) as [s|s| |s m e] eqn:E.
  - left. apply Prim2SF_inj. rewrite add_spec, E. reflexivity.
  - destruct s.
    + left. apply Prim2SF_inj. rewrite add_spec, E. reflexivity.
    + right. apply Prim2SF_inj. rewrite add_spec, E. reflexivity.
  - right. apply Prim2SF_inj. rewrite add_spec, E. reflexivity.
  - left. apply Prim2SF_inj. rewrite add_spec, E. reflexivity.
Qed.

Lemma dew_point_of_zero_humidity (M : Math) (temp : number) :
  calculateDewPoint M temp 0 = nan.
Proof.
  unfold calculateDewPoint.
  replace (0 / 100.0) with zero by (vm_compute; reflexivity).
  rewrite (Math_log_zero M zero eq_refl).
  destruct (add_neg_infinity ((17.27 * temp) / (237.7 + temp))) as [H|H];
    rewrite H; vm_compute; reflexivity.
Qed.

(** At zero humidity the logarithm is -Infinity and the dew point is NaN,
    whatever the temperature. *)
Theorem calculateDewPoint_zero (M : Math) (temp : number) :
  calculateDewPoint M temp 0 = nan.
Proof. exact (dew_point_of_zero_humidity M temp). Qed.

(** With the humidity clamped to 0 the effect passes that 0 on to
    [calculateDewPoint], and the card shows a humidity of 0 with a dew
    point of NaN. *)
Lemma zero_humidity_shows_nan_dew_point (h : Host)
  (init : PsychrometricData) (st : CardState) :
  let r := readings st in
  gt (wetTemp r) (dryTemp r) = false ->
  calculateHumidity h (dryTemp r) (wetTemp r) = 0 ->
  snd (recalculate h init st)
  = [CalculateHumidity (dryTemp r) (wetTemp r);
     CalculateDewPoint (dryTemp r) 0] /\
  shownHumidity (fst (recalculate h init st)) = Some 0 /\
  shownDewPoint (fst (recalculate h init st)) = Some nan.
Proof.
  intros r G Z. unfold recalculate. fold r. rewrite G, Z.
  unfold shownHumidity, shownDewPoint. simpl.
  rewrite dew_point_of_zero_humidity. auto.
Qed.

Lemma zero_humidity_shows_nan_dew_point_witness :
  snd (recalculate Reference.host dryAir (mount dryAir))
  = [CalculateHumidity 35 14; CalculateDewPoint 35 0] /\
  shownHumidity (mounted Reference.host dryAir) = Some 0 /\
  shownDewPoint (mounted Reference.host dryAir) = Some nan.
Proof.
  apply (zero_humidity_shows_nan_dew_point Reference.host dryAir
           (mount dryAir)); vm_compute; reflexivity.
Defined.

(** C5, as amended.  Every call of [calculateDewPoint] the effect makes
    is for readings that passed the wet-above-dry check and carries the
    dry-bulb temperature and the value [calculateHumidity] has just
    returned for them, which is NaN or lies between 0 and 100; nothing
    keeps it from being 0. *)
Theorem dew_point_argument (h : Host) (init : PsychrometricData)
  (st : CardState) (temp rh : number) :
  In (CalculateDewPoint temp rh) (snd (recalculate h init st)) ->
  let r := readings st in
  gt (wetTemp r) (dryTemp r) = false /\
  temp = dryTemp r /\
  rh = calculateHumidity h (dryTemp r) (wetTemp r) /\
  (rh = nan \/ (0 <=? rh) = true /\ (rh <=? 100) = true).
Proof.
  intros I r. unfold recalculate in I. fold r in I.
  destruct (gt (wetTemp r) (dryTemp r)) eqn:G; simpl in I.
  - contradiction.
  - destruct I as [I|[I|I]]; try discriminate I; try contradiction.
    injection I as Et Er. subst temp rh.
    repeat split.
    unfold calculateHumidity.
    fold (clamp (rawHumidity h (dryTemp r) (wetTemp r))).
    pose proof (clamp_toFixed1_cases
                  (rawHumidity h (dryTemp r) (wetTemp r))) as C.
    cbv zeta in C.
    destruct (is_nan (rawHumidity h (dryTemp r) (wetTemp r)));
      [left; exact C | right; apply C].
Qed.

(** C5 at 20 degrees dry, 15 degrees wet on the reference host. *)
Lemma dew_point_argument_witness :
  gt 15 20 = false /\
  20 = dryTemp reading /\
  55.7 = calculateHumidity Reference.host 20 15 /\
  (55.7 = nan \/ (0 <=? 55.7) = true /\ (55.7 <=? 100) = true).
Proof.
  apply (dew_point_argument Reference.host reading (mount reading) 20 55.7).
  vm_compute. auto.
Defined.

(** C5 as stated fails at 35 degrees dry, 14 degrees wet: the humidity is
    clamped to 0 and [calculateDewPoint] is called with it. *)
Lemma dew_point_requested_at_zero :
  ~ forall (h : Host) (init : PsychrometricData) (st : CardState)
      (temp rh : number),
      In (CalculateDewPoint temp rh) (snd (recalculate h init st)) ->
      (0 <? rh) = true.
Proof.
  intros H.
  specialize (H Reference.host dryAir (mount dryAir) 35 0).
  assert (I : In (CalculateDewPoint 35 0)
                 (snd (recalculate Reference.host dryAir (mount dryAir))))
    by (vm_compute; auto).
  apply H in I. discriminate I.
Qed.

End DewPointFacts.

(** ** The properties on concrete runs *)

Module Scenarios.
Import JS Value Types GeminiService Notions Samples.
Local Open Scope string_scope.

(** C2 on five, and on four, calls. *)
Lemma exemplar_buffer_capacity_witness :
  List.length
    (App.trainingExamples
       (App.learnAll Reference.host
          [learnAt 1; learnAt 2; learnAt 3; learnAt 4; learnAt 5]
          photoSelected)) <= 3 /\
  App.trainingExamples
    (App.learnAll Reference.host
       [learnAt 1; learnAt 2; learnAt 3; learnAt 4] photoSelected)
  = [App.exampleOf photo (learnAt 2); App.exampleOf photo (learnAt 3);
     App.exampleOf photo (learnAt 4)].
Proof.
  destruct (AppFacts.exemplar_buffer_capacity Reference.host photoSelected
              [learnAt 1; learnAt 2; learnAt 3; learnAt 4; learnAt 5])
    as [A B].
  - simpl. lia.
  - split; [exact A|].
    apply B; [reflexivity | discriminate | reflexivity].
Defined.

(** C3 after selecting a photograph the oracle reads as 20 dry, 25 wet. *)
Lemma wet_above_dry_blocks_session_witness :
  exists init c,
    Session.card
      (Session.run Reference.host fresh
         [Session.SelectImage photo (Responded (Some wetAboveDry))])
    = Some (init, c) /\
    ResultCard.validationError c = Some ResultCard.wetAboveDryMessage /\
    ResultCard.shownHumidity c = None /\
    ResultCard.shownDewPoint c = None /\
    ResultCard.handleLearnClick c = (c, None).
Proof.
  eexists. eexists.
  assert (C : Session.card
                (Session.run Reference.host fresh
                   [Session.SelectImage photo (Responded (Some wetAboveDry))])
              = Some (_, _)) by (vm_compute; reflexivity).
  split; [exact C|].
  destruct (SessionFacts.wet_above_dry_blocks_session Reference.host fresh
              _ _ _ eq_refl C) as (V & H & D & _ & L & _).
  - vm_compute. reflexivity.
  - auto.
Defined.

(** C4 on the response [{isPsychrometer:false, dryTemp:0, wetTemp:0}]. *)
Lemma not_a_psychrometer_is_an_error_witness :
  App.appState
    (App.handleImageSelected Reference.host photo
       (Responded (Some notAnInstrument)) App.initial) = ERROR /\
  App.errorMsg
    (App.handleImageSelected Reference.host photo
       (Responded (Some notAnInstrument)) App.initial)
  = Some notFoundMessage.
Proof.
  destruct (ServiceFacts.not_a_psychrometer_is_an_error Reference.host
              notAnInstrument photo
              [("isPsychrometer", JBool false); ("dryTemp", JNum 0);
               ("wetTemp", JNum 0)]
              App.initial) as (_ & A & B & _).
  - intros H. vm_compute in H. discriminate H.
  - vm_compute. reflexivity.
  - reflexivity.
  - split; assumption.
Defined.

(** C6 on the response [{isPsychrometer:true, dryTemp:20, wetTemp:25}]. *)
Lemma wet_above_dry_is_passed_through_witness :
  analyzeHygrometer Reference.host (Responded (Some wetAboveDry))
  = Normal (JObj [("isPsychrometer", JBool true); ("dryTemp", JNum 20);
                  ("wetTemp", JNum 25)]).
Proof.
  destruct (ServiceFacts.wet_above_dry_is_passed_through Reference.host
              wetAboveDry photo
              [("isPsychrometer", JBool true); ("dryTemp", JNum 20);
               ("wetTemp", JNum 25)]
              20 25 App.initial) as (A & _).
  - intros H. vm_compute in H. discriminate H.
  - vm_compute. reflexivity.
  - reflexivity.
  - reflexivity.
  - reflexivity.
  - reflexivity.
  - exact A.
Defined.

(** A run in which the user corrects the wet bulb and commits it. *)
Lemma session_buffer_bounded_witness :
  List.length
    (App.trainingExamples
       (Session.app
          (Session.run Reference.host fresh
             [Session.SelectImage photo (Responded (Some wetAboveDry));
              Session.Edit ResultCard.F_wetTemp "15.2";
              Session.LearnClick 1700000000000 1700000000001]))) <= 3.
Proof.
  apply SessionFacts.session_buffer_bounded. simpl. lia.
Defined.

(** On the reference host the saturation vapour pressure rises from each
    reading of the scale to the next. *)
Lemma saturation_increasing_on_scale :
  strictly_increasing
    (Psychrometry.getSaturationVaporPressure Reference.math) scale = true.
Proof. vm_compute. reflexivity. Qed.

(** C10 on the text [abc] typed into the wet-bulb field. *)
Lemma handleChange_ignores_non_numbers_witness :
  ResultCard.edit Reference.host reading ResultCard.F_wetTemp "abc"
    (ResultCard.mounted Reference.host reading)
  = ResultCard.mounted Reference.host reading.
Proof.
  apply (CardFacts.handleChange_ignores_non_numbers Reference.host reading
           ResultCard.F_wetTemp "abc").
  right. right. vm_compute. reflexivity.
Defined.

End Scenarios.

(** ** More facts about binary64 arithmetic *)

Module NumberFacts.
Import JS Notions Binary64.

(** NaN absorbs the four operations. *)
Lemma add_nan_l (x : float) : nan + x = nan.
Proof.
  apply Prim2SF_inj. rewrite add_spec.
  destruct (Prim2SF x) as [s|s| |s m e]; reflexivity.
Qed.

Lemma add_nan_r (x : float) : x + nan = nan.
Proof.
  apply Prim2SF_inj. rewrite add_spec.
  destruct (Prim2SF x) as [s|s| |s m e]; reflexivity.
Qed.

Lemma sub_nan_l (x : float) : nan - x = nan.
Proof.
  apply Prim2SF_inj. rewrite sub_spec.
  destruct (Prim2SF x) as [s|s| |s m e]; reflexivity.
Qed.

Lemma sub_nan_r (x : float) : x - nan = nan.
Proof.
  apply Prim2SF_inj. rewrite sub_spec.
  destruct (Prim2SF x) as [s|s| |s m e]; reflexivity.
Qed.

Lemma mul_nan_l (x : float) : nan * x = nan.
Proof.
  apply Prim2SF_inj. rewrite mul_spec.
  destruct (Prim2SF x) as [s|s| |s m e]; reflexivity.
Qed.

Lemma mul_nan_r (x : float) : x * nan = nan.
Proof.
  apply Prim2SF_inj. rewrite mul_spec.
  destruct (Prim2SF x) as [s|s| |s m e]; reflexivity.
Qed.

Lemma div_nan_l (x : float) : nan / x = nan.
Proof.
  apply Prim2SF_inj. rewrite div_spec.
  destruct (Prim2SF x) as [s|s| |s m e]; reflexivity.
Qed.

Lemma div_nan_r (x : float) : x / nan = nan.
Proof.
  apply Prim2SF_inj. rewrite div_spec.
  destruct (Prim2SF x) as [s|s| |s m e]; reflexivity.
Qed.

(** A number that is not finite is NaN or an infinity. *)
Lemma not_finite_SF (x : float) :
  is_finite x = false ->
  Prim2SF x = S754_nan \/ exists s, Prim2SF x = S754_infinity s.
Proof.
  intro H.
  destruct (Prim2SF x) as [s|s| |s m e] eqn:E; eauto.
  - exfalso. unfold is_finite, is_nan, is_infinity in H.
    rewrite !eqb_spec, abs_spec, E in H. destruct s; discriminate H.
  - exfalso. unfold is_finite, is_nan, is_infinity in H.
    rewrite !eqb_spec, abs_spec, E in H.
    unfold SFeqb, SFcompare, SFabs in H.
    replace (Prim2SF infinity) with (S754_infinity false) in H by reflexivity.
    rewrite Z.compare_refl, Pos.compare_cont_refl in H.
    destruct s; discriminate H.
Qed.

(** The Magnus quotient [(c * t) / (t + d)] at a temperature that is not
    finite. *)
Lemma quotient_not_finite (c d t : float) (sc sd : bool) (mc md : positive)
  (ec ed : Z) :
  Prim2SF c = S754_finite sc mc ec ->
  Prim2SF d = S754_finite sd md ed ->
  is_finite t = false ->
  (c * t) / (t + d) = nan.
Proof.
  intros Hc Hd H. apply Prim2SF_inj.
  rewrite div_spec, mul_spec, add_spec, Hc, Hd.
  destruct (not_finite_SF t H) as [E | [s E]]; rewrite E.
  - reflexivity.
  - destruct s, sc; reflexivity.
Qed.

Lemma quotient_not_finite' (c d t : float) (sc sd : bool) (mc md : positive)
  (ec ed : Z) :
  Prim2SF c = S754_finite sc mc ec ->
  Prim2SF d = S754_finite sd md ed ->
  is_finite t = false ->
  (c * t) / (d + t) = nan.
Proof.
  intros Hc Hd H. apply Prim2SF_inj.
  rewrite div_spec, mul_spec, add_spec, Hc, Hd.
  destruct (not_finite_SF t H) as [E | [s E]]; rewrite E.
  - reflexivity.
  - destruct s, sc; reflexivity.
Qed.

Lemma toFixed1_nan : toFixed1_parseFloat nan = nan.
Proof. reflexivity. Qed.

(** [x - x] is zero or NaN, so never more than 0.01 in magnitude. *)
Lemma sub_self_cases (x : float) : x - x = 0 \/ x - x = nan.
Proof.
  destruct (is_finite x) eqn:F.
  - left. apply sub_self. exact F.
  - right. apply Prim2SF_inj. rewrite sub_spec.
    destruct (not_finite_SF x F) as [E | [s E]]; rewrite E.
    + reflexivity.
    + destruct s; reflexivity.
Qed.

Lemma abs_sub_self (x : float) : gt (Math_abs (x - x)) 0.01 = false.
Proof.
  destruct (sub_self_cases x) as [E | E]; rewrite E; reflexivity.
Qed.

End NumberFacts.

(** ** utils/psychrometry: edge cases *)

Module CalculatorEdges.
Import JS Notions Binary64 NumberFacts Psychrometry.

Lemma saturation_not_finite (M : Math) (t : number) :
  is_finite t = false -> getSaturationVaporPressure M t = nan.
Proof.
  intro H. unfold getSaturationVaporPressure.
  assert (Q : 17.67 * t / (t + 243.5) = nan).
  { eapply quotient_not_finite;
      [vm_compute; reflexivity | vm_compute; reflexivity | exact H]. }
  rewrite Q, Math_exp_nan. apply mul_nan_r.
Qed.

Lemma rawHumidity_not_finite (M : Math) (dryTemp wetTemp : number) :
  is_finite dryTemp = false \/ is_finite wetTemp = false ->
  rawHumidity M dryTemp wetTemp = nan.
Proof.
  intros [H | H]; unfold rawHumidity; cbv zeta;
    rewrite (saturation_not_finite M _ H).
  - rewrite div_nan_r. apply mul_nan_l.
  - rewrite sub_nan_l, div_nan_l. apply mul_nan_l.
Qed.

(** A reading that is NaN or infinite gives NaN, under every
    [Math.exp]: the Magnus quotient is then NaN, and the clamp and the
    rounding pass NaN on. *)
Theorem calculateHumidity_not_finite (M : Math) (dryTemp wetTemp : number) :
  is_finite dryTemp = false \/ is_finite wetTemp = false ->
  calculateHumidity M dryTemp wetTemp = nan.
Proof.
  intro H. unfold calculateHumidity. cbv zeta.
  rewrite (rawHumidity_not_finite M _ _ H). reflexivity.
Qed.

Lemma calculateHumidity_not_finite_witness :
  calculateHumidity Reference.math infinity 20 = nan.
Proof.
  apply (calculateHumidity_not_finite Reference.math infinity 20).
  left. reflexivity.
Defined.

Lemma add_infinity (x : float) :
  x + infinity = infinity \/ x + infinity = nan.
Proof.
  destruct (Prim2SF x) as [s|s| |s m e] eqn:E.
  - left. apply Prim2SF_inj. rewrite add_spec, E. reflexivity.
  - destruct s.
    + right. apply Prim2SF_inj. rewrite add_spec, E. reflexivity.
    + left. apply Prim2SF_inj. rewrite add_spec, E. reflexivity.
  - right. apply Prim2SF_inj. rewrite add_spec, E. reflexivity.
  - left. apply Prim2SF_inj. rewrite add_spec, E. reflexivity.
Qed.

(** The humidity divided by 100 when it is not finite. *)
Lemma percent_not_finite (rh : float) :
  is_finite rh = false ->
  rh / 100.0 = nan \/ rh / 100.0 = infinity \/ rh / 100.0 = neg_infinity.
Proof.
  intro H.
  destruct (not_finite_SF rh H) as [E | [s E]].
  - left. apply Prim2SF_inj. rewrite div_spec, E. reflexivity.
  - destruct s.
    + right. right. apply Prim2SF_inj. rewrite div_spec, E. reflexivity.
    + right. left. apply Prim2SF_inj. rewrite div_spec, E. reflexivity.
Qed.

(** A temperature or a humidity that is NaN or infinite gives NaN, under
    every [Math.log]. *)
Theorem calculateDewPoint_not_finite (M : Math) (temp rh : number) :
  is_finite temp = false \/ is_finite rh = false ->
  calculateDewPoint M temp rh = nan.
Proof.
  intros [H | H]; unfold calculateDewPoint; cbv zeta.
  - assert (Q : 17.27 * temp / (237.7 + temp) = nan).
    { eapply quotient_not_finite';
        [vm_compute; reflexivity | vm_compute; reflexivity | exact H]. }
    rewrite Q, add_nan_l, mul_nan_r. apply div_nan_l.
  - destruct (percent_not_finite rh H) as [E | [E | E]]; rewrite E.
    + rewrite Math_log_nan, add_nan_r, mul_nan_r. apply div_nan_l.
    + rewrite Math_log_pinf.
      destruct (add_infinity (17.27 * temp / (237.7 + temp))) as [A | A];
        rewrite A.
      * reflexivity.
      * rewrite mul_nan_r. apply div_nan_l.
    + rewrite (Math_log_neg M neg_infinity) by reflexivity.
      rewrite add_nan_r, mul_nan_r. apply div_nan_l.
Qed.

Lemma calculateDewPoint_not_finite_witness :
  calculateDewPoint Reference.math 20 nan = nan.
Proof.
  apply (calculateDewPoint_not_finite Reference.math 20 nan).
  right. reflexivity.
Defined.

(** Rounding a number between 0 and 100 to one decimal gives a count of
    tenths between 0 and 1000. *)
Lemma toFixed1_tenths (c : float) :
  (0 <=? c) = true -> (c <=? 100) = true ->
  exists k : Z, (0 <= k <= 1000)%Z /\ toFixed1_parseFloat c = of_tenths false k.
Proof.
  intros H0 H100. unfold toFixed1_parseFloat.
  pose proof (Prim2SF_valid c) as V.
  pose proof (abs_spec c) as Ab.
  rewrite leb_spec in H0, H100.
  replace (Prim2SF 0) with (S754_zero false) in H0 by reflexivity.
  replace (Prim2SF 100)
    with (S754_finite false 7036874417766400 (-46)) in H100
    by (vm_compute; reflexivity).
  rewrite (leb_spec 1e21 (abs c)), Ab.
  destruct (Prim2SF c) as [s|s| |s m e].
  - exists 0%Z. split; [lia | reflexivity].
  - destruct s; discriminate.
  - discriminate.
  - destruct s; [discriminate|].
    apply valid_mantissa in V.
    pose proof (tenths_range m e V H100) as T.
    replace (SFleb (Prim2SF 1e21) (SFabs (S754_finite false m e))) with false.
    + exists (tenths m e). split; [exact T | reflexivity].
    + assert (He : (e <= -46)%Z).
      { unfold SFleb, SFcompare in H100.
        destruct (e ?= -46)%Z eqn:C; try discriminate.
        - apply Z.compare_eq in C. lia.
        - rewrite Z.compare_lt_iff in C. lia. }
      set (k := Prim2SF 1e21). vm_compute in k. subst k.
      unfold SFabs, SFleb, SFcompare.
      destruct (17 ?= e)%Z eqn:C; try reflexivity.
      * apply Z.compare_eq in C. lia.
      * rewrite Z.compare_lt_iff in C. lia.
Qed.

(** The humidity has one decimal: [calculateHumidity] returns NaN or
    the number nearest to [k / 10] for a whole [k] from 0 to 1000,
    under every [Math.exp]. *)
Theorem calculateHumidity_one_decimal (M : Math) (dryTemp wetTemp : number) :
  calculateHumidity M dryTemp wetTemp = nan \/
  exists k : Z,
    (0 <= k <= 1000)%Z /\
    calculateHumidity M dryTemp wetTemp = of_tenths false k.
Proof.
  unfold calculateHumidity. cbv zeta.
  change (Math_max 0 (Math_min 100 (rawHumidity M dryTemp wetTemp)))
    with (clamp (rawHumidity M dryTemp wetTemp)).
  destruct (is_nan (rawHumidity M dryTemp wetTemp)) eqn:N.
  - left. rewrite (clamp_nan _ N). reflexivity.
  - right. destruct (clamp_range _ N) as (_ & H0 & H100).
    apply toFixed1_tenths; assumption.
Qed.

End CalculatorEdges.

(** ** components/ResultCard: what the card keeps true *)

Module CardInvariants.
Import JS Value Types Psychrometry ResultCard Notions Invariants.
Import NumberFacts CardFacts.
Local Open Scope string_scope.

Lemma recalculate_upToDate (h : Host) (init : PsychrometricData)
  (st : CardState) :
  upToDate h init (fst (recalculate h init st)).
Proof.
  unfold upToDate. rewrite recalculate_readings. unfold recalculate.
  destruct (gt (wetTemp (readings st)) (dryTemp (readings st))); simpl; auto.
Qed.

Lemma edit_upToDate (h : Host) (init : PsychrometricData) (f : field)
  (value : string) (st : CardState) :
  upToDate h init st -> upToDate h init (edit h init f value st).
Proof.
  intros U. unfold edit.
  destruct (handleChange h f value st); [apply recalculate_upToDate|exact U].
Qed.

Lemma handleLearnClick_upToDate (h : Host) (init : PsychrometricData)
  (st : CardState) :
  upToDate h init st -> upToDate h init (fst (handleLearnClick st)).
Proof.
  unfold handleLearnClick.
  destruct (truthy_string (validationError st)); intros U; exact U.
Qed.

(** An up-to-date card whose learn button is on screen holds readings
    that pass the check and differ from the initial ones. *)
Lemma upToDate_learn (h : Host) (init : PsychrometricData) (c : CardState) :
  upToDate h init c -> learnButtonShown c = true ->
  gt (wetTemp (readings c)) (dryTemp (readings c)) = false /\
  hasChanged init (readings c) = true /\
  validationError c = None.
Proof.
  unfold upToDate, learnButtonShown. intros U L.
  apply andb_prop in L. destruct L as [L V].
  apply andb_prop in L. destruct L as [C _].
  destruct (gt (wetTemp (readings c)) (dryTemp (readings c))).
  - rewrite U in V. discriminate V.
  - destruct U as (E & _ & IC). rewrite <- IC. auto.
Qed.

Lemma hasChanged_same (init : PsychrometricData) : hasChanged init init = false.
Proof.
  unfold hasChanged. rewrite !abs_sub_self. reflexivity.
Qed.

Lemma setField_number (f : field) (num : number) (r : PsychrometricData) :
  is_nan num = false ->
  is_nan (dryTemp r) = false /\ is_nan (wetTemp r) = false ->
  is_nan (dryTemp (setField f num r)) = false /\
  is_nan (wetTemp (setField f num r)) = false.
Proof.
  intros N [D W]. destruct f; simpl; auto.
Qed.

Lemma edit_number (h : Host) (init : PsychrometricData) (f : field)
  (value : string) (st : CardState) :
  is_nan (dryTemp (readings st)) = false /\
  is_nan (wetTemp (readings st)) = false ->
  is_nan (dryTemp (readings (edit h init f value st))) = false /\
  is_nan (wetTemp (readings (edit h init f value st))) = false.
Proof.
  intros N. unfold edit, handleChange.
  destruct (String.eqb value "" || String.eqb value "-"); [exact N|].
  unfold isNaN. destruct (is_nan (parseFloat h value)) eqn:P; simpl;
    [exact N|].
  rewrite recalculate_readings. simpl. apply setField_number; assumption.
Qed.

(** No edit puts NaN into a reading: a card mounted on two numbers
    holds two numbers after any sequence of edits, whatever
    [parseFloat] makes of the texts. *)
Theorem readings_stay_numbers (h : Host) (init : PsychrometricData)
  (edits : list (field * string)) :
  is_nan (dryTemp init) = false -> is_nan (wetTemp init) = false ->
  is_nan (dryTemp (readings (afterEdits h init edits))) = false /\
  is_nan (wetTemp (readings (afterEdits h init edits))) = false.
Proof.
  intros D W. unfold afterEdits.
  assert (G : forall st,
            is_nan (dryTemp (readings st)) = false /\
            is_nan (wetTemp (readings st)) = false ->
            let st' := fold_left (fun st e => edit h init (fst e) (snd e) st)
                                 edits st in
            is_nan (dryTemp (readings st')) = false /\
            is_nan (wetTemp (readings st')) = false).
  { induction edits as [|e edits IH]; intros st N; simpl; [exact N|].
    apply IH, edit_number, N. }
  apply G. unfold mounted. rewrite recalculate_readings. simpl. auto.
Qed.

Lemma readings_stay_numbers_witness :
  is_nan (dryTemp (readings (afterEdits Reference.host Samples.reading
            [(F_wetTemp, "abc"); (F_dryTemp, "21.4"); (F_wetTemp, "NaN")])))
  = false /\
  is_nan (wetTemp (readings (afterEdits Reference.host Samples.reading
            [(F_wetTemp, "abc"); (F_dryTemp, "21.4"); (F_wetTemp, "NaN")])))
  = false.
Proof.
  apply (readings_stay_numbers Reference.host Samples.reading
           [(F_wetTemp, "abc"); (F_dryTemp, "21.4"); (F_wetTemp, "NaN")]);
    reflexivity.
Defined.

End CardInvariants.

(** ** The session: what every reachable state satisfies *)

Module SessionInvariants.
Import JS Value Types GeminiService Notions Invariants.
Import CardFacts CardInvariants.
Import Session.
Local Open Scope string_scope.

Lemma run_invariant (h : Host) (P : Session.Session -> Prop) :
  (forall s ev, P s -> P (step h s ev)) ->
  forall evs s, P s -> P (run h s evs).
Proof.
  intros St. unfold run.
  induction evs as [|ev evs IH]; intros s H; simpl; [exact H|].
  apply IH, St, H.
Qed.

Lemma run_app (h : Host) (evs : list Event) (ev : Event) (s : Session.Session) :
  run h s (evs ++ [ev]) = step h (run h s evs) ev.
Proof.
  unfold run. rewrite fold_left_app. reflexivity.
Qed.

(** *** The card shows what its effect computes *)

Lemma render_upToDate (h : Host) (a : App.AppModel) :
  cardUpToDate h {| app := a; card := render h a |}.
Proof.
  unfold cardUpToDate, render. simpl.
  destruct (App.appState a); try exact I.
  destruct (App.data a) as [d|]; try exact I.
  destruct (App.image a) as [img|]; try exact I.
  destruct (truthy d && negb (String.eqb img "")); try exact I.
  destruct (asPsychrometricData d) as [init|]; try exact I.
  apply recalculate_upToDate.
Qed.

Lemma step_upToDate (h : Host) (s : Session.Session) (ev : Event) :
  cardUpToDate h s -> cardUpToDate h (step h s ev).
Proof.
  intros S. destruct ev as [base64 o| |f value|now_id now_ts|base64|o]; simpl.
  - destruct (App.appState (app s)); try exact S. apply render_upToDate.
  - destruct (App.appState (app s)); try exact S; exact I.
  - unfold cardUpToDate in S.
    destruct (card s) as [[init c]|] eqn:E.
    + unfold cardUpToDate. simpl. apply edit_upToDate, S.
    + unfold cardUpToDate. rewrite E. exact I.
  - unfold cardUpToDate in S.
    destruct (card s) as [[init c]|] eqn:E.
    + destruct (ResultCard.learnButtonShown c).
      * pose proof (handleLearnClick_upToDate h init c S) as S'.
        destruct (ResultCard.handleLearnClick c) as [c' [[dry wet]|]];
          unfold cardUpToDate; simpl; [|exact S'].
        destruct (App.handleLearn_throws h now_id now_ts dry wet (app s));
          [exact S | exact S'].
      * unfold cardUpToDate. rewrite E. exact S.
    + unfold cardUpToDate. rewrite E. exact I.
  - destruct (App.appState (app s)); try exact S. apply render_upToDate.
  - destruct (App.appState (app s)); try exact S. apply render_upToDate.
Qed.

Lemma reachable_upToDate (h : Host) (s0 : Session.Session)
  (evs : list Event) (init : PsychrometricData) (c : ResultCard.CardState) :
  card s0 = None ->
  card (run h s0 evs) = Some (init, c) ->
  upToDate h init c.
Proof.
  intros C0 C.
  assert (S : cardUpToDate h (run h s0 evs)).
  { apply run_invariant; [apply step_upToDate|].
    unfold cardUpToDate. rewrite C0. exact I. }
  unfold cardUpToDate in S. rewrite C in S. exact S.
Qed.

(** Whatever the user has done, a card whose readings pass the check
    shows the humidity and the dew point of the readings it holds at
    that moment, and no validation error. *)
Theorem display_follows_readings (h : Host) (s0 : Session.Session)
  (evs : list Event) (init : PsychrometricData) (c : ResultCard.CardState) :
  card s0 = None ->
  card (run h s0 evs) = Some (init, c) ->
  let r := ResultCard.readings c in
  gt (wetTemp r) (dryTemp r) = false ->
  let rh := Psychrometry.calculateHumidity h (dryTemp r) (wetTemp r) in
  ResultCard.validationError c = None /\
  ResultCard.shownHumidity c = Some rh /\
  ResultCard.shownDewPoint c
  = Some (toFixed1_parseFloat
            (Psychrometry.calculateDewPoint h (dryTemp r) rh)).
Proof.
  intros C0 C r G rh.
  pose proof (reachable_upToDate h s0 evs init c C0 C) as U.
  unfold upToDate in U. fold r in U. rewrite G in U.
  destruct U as (V & R & _).
  unfold ResultCard.shownHumidity, ResultCard.shownDewPoint.
  rewrite V, R. simpl. auto.
Qed.

(** The humidity figure on screen is NaN or a whole number of tenths
    from 0 to 100, in every state a session reaches. *)
Theorem shown_humidity_has_one_decimal (h : Host) (s0 : Session.Session)
  (evs : list Event) (init : PsychrometricData) (c : ResultCard.CardState)
  (rh : number) :
  card s0 = None ->
  card (run h s0 evs) = Some (init, c) ->
  ResultCard.shownHumidity c = Some rh ->
  rh = nan \/
  exists k : Z, (0 <= k <= 1000)%Z /\ rh = of_tenths false k.
Proof.
  intros C0 C S.
  pose proof (reachable_upToDate h s0 evs init c C0 C) as U.
  unfold upToDate in U. unfold ResultCard.shownHumidity in S.
  destruct (gt (wetTemp (ResultCard.readings c))
               (dryTemp (ResultCard.readings c))).
  - rewrite U in S. discriminate S.
  - destruct U as (V & R & _). rewrite V, R in S. simpl in S.
    injection S as S. subst rh.
    unfold Psychrometry.calculateHumidity. cbv zeta.
    set (raw := Psychrometry.rawHumidity h _ _).
    change (Math_max 0 (Math_min 100 raw)) with (clamp raw).
    destruct (is_nan raw) eqn:N.
    + left. rewrite (Binary64.clamp_nan _ N). reflexivity.
    + right. destruct (Binary64.clamp_range _ N) as (_ & H0 & H100).
      apply CalculatorEdges.toFixed1_tenths; assumption.
Qed.

(** The learn button is offered for corrections only: when it is on
    screen the readings pass the check and one of them differs from the
    initial one by more than 0.01; on the initial readings it is never
    on screen. *)
Theorem learn_offered_for_corrections (h : Host) (s0 : Session.Session)
  (evs : list Event) (init : PsychrometricData) (c : ResultCard.CardState) :
  card s0 = None ->
  card (run h s0 evs) = Some (init, c) ->
  (ResultCard.learnButtonShown c = true ->
   gt (wetTemp (ResultCard.readings c)) (dryTemp (ResultCard.readings c))
   = false /\
   hasChanged init (ResultCard.readings c) = true) /\
  (ResultCard.readings c = init -> ResultCard.learnButtonShown c = false).
Proof.
  intros C0 C.
  pose proof (reachable_upToDate h s0 evs init c C0 C) as U.
  split.
  - intros L. destruct (upToDate_learn h init c U L) as (G & Ch & _). auto.
  - intros E. destruct (ResultCard.learnButtonShown c) eqn:L; [|reflexivity].
    destruct (upToDate_learn h init c U L) as (_ & Ch & _).
    rewrite E, hasChanged_same in Ch. discriminate Ch.
Qed.

(** *** Learning *)

(** A second click on the learn button right after a click in which
    [handleLearn] returned changes nothing: that click set [hasLearned],
    which takes the button off the screen.  When [setItem] throws in
    the first click, [setHasLearned] is not reached and the card is left
    as it was, button included. *)
Theorem learn_click_once (h : Host) (s : Session.Session)
  (now_id now_ts now_id' now_ts' : Z) :
  (learnThrows h s now_id now_ts = false ->
   step h (step h s (LearnClick now_id now_ts)) (LearnClick now_id' now_ts')
   = step h s (LearnClick now_id now_ts)) /\
  (learnThrows h s now_id now_ts = true ->
   card (step h s (LearnClick now_id now_ts)) = card s).
Proof.
  unfold learnThrows. simpl.
  destruct (card s) as [[init c]|] eqn:E.
  - destruct (ResultCard.learnButtonShown c) eqn:L.
    + unfold ResultCard.handleLearnClick.
      unfold ResultCard.learnButtonShown in L.
      apply andb_prop in L. destruct L as [L V].
      apply negb_true_iff in V. rewrite V. simpl.
      split; intros T; rewrite T; simpl.
      * unfold ResultCard.learnButtonShown. simpl.
        rewrite andb_false_r. reflexivity.
      * reflexivity.
    + split; intros T; [rewrite E, L; reflexivity | discriminate T].
  - split; intros T; [rewrite E; reflexivity | discriminate T].
Qed.

Lemma render_hasImage (h : Host) (a : App.AppModel) :
  cardHasImage {| app := a; card := render h a |}.
Proof.
  unfold cardHasImage, render. simpl.
  destruct (App.appState a); try exact I.
  destruct (App.data a) as [d|]; try exact I.
  destruct (App.image a) as [img|]; try exact I.
  destruct (truthy d && negb (String.eqb img "")) eqn:T; try exact I.
  destruct (asPsychrometricData d) as [init|]; try exact I.
  exists img. split; [reflexivity|].
  apply andb_prop in T. destruct T as [_ T].
  apply negb_true_iff in T. apply String.eqb_neq. exact T.
Qed.

Lemma step_hasImage (h : Host) (s : Session.Session) (ev : Event) :
  cardHasImage s -> cardHasImage (step h s ev).
Proof.
  intros S. destruct ev as [base64 o| |f value|now_id now_ts|base64|o]; simpl.
  - destruct (App.appState (app s)); try exact S. apply render_hasImage.
  - destruct (App.appState (app s)); try exact S; exact I.
  - unfold cardHasImage in S.
    destruct (card s) as [[init c]|] eqn:E.
    + exact S.
    + unfold cardHasImage. rewrite E. exact I.
  - unfold cardHasImage in S.
    destruct (card s) as [[init c]|] eqn:E.
    + destruct (ResultCard.learnButtonShown c).
      * destruct (ResultCard.handleLearnClick c) as [c' [[dry wet]|]];
          unfold cardHasImage; simpl; [|exact S].
        rewrite AppFacts.handleLearn_image. exact S.
      * unfold cardHasImage. rewrite E. exact S.
    + unfold cardHasImage. rewrite E. exact I.
  - destruct (App.appState (app s)); try exact S. apply render_hasImage.
  - destruct (App.appState (app s)); try exact S. apply render_hasImage.
Qed.

(** A click on the learn button always reaches the buffer: on every
    card a session reaches with the button on screen, the click appends
    an exemplar made of the selected image and the readings the card
    holds and keeps the last three.  The card is marked as learned and
    the stored item rewritten exactly when [setItem] did not throw;
    when it threw, both stay as they were. *)
Theorem learn_stores_card_readings (h : Host) (s0 : Session.Session)
  (evs : list Event) (init : PsychrometricData) (c : ResultCard.CardState)
  (now_id now_ts : Z) :
  card s0 = None ->
  card (run h s0 evs) = Some (init, c) ->
  ResultCard.learnButtonShown c = true ->
  let s := run h s0 evs in
  let s' := step h s (LearnClick now_id now_ts) in
  exists img,
    App.image (app s) = Some img /\
    App.trainingExamples (app s')
    = App.slice_last 3
        (App.trainingExamples (app s) ++
         [{| id := App.Z_toString now_id; timestamp := now_ts;
             imageUrl := img;
             correctedDry := dryTemp (ResultCard.readings c);
             correctedWet := wetTemp (ResultCard.readings c) |}]) /\
    App.stored (app s')
    = (if learnThrows h s now_id now_ts then App.stored (app s)
       else Some (JSON_stringify h
                    (JArr (map encodeExample
                             (App.trainingExamples (app s'))))))  /\
    exists c', card s' = Some (init, c') /\
               ResultCard.hasLearned c'
               = negb (learnThrows h s now_id now_ts) /\
               ResultCard.readings c' = ResultCard.readings c.
Proof.
  intros C0 C L s s'.
  assert (HI : cardHasImage s).
  { apply run_invariant; [apply step_hasImage|].
    unfold cardHasImage. rewrite C0. exact I. }
  unfold cardHasImage in HI. fold s in C. rewrite C in HI.
  destruct HI as (img & Im & Ne).
  exists img. split; [exact Im|].
  unfold s', learnThrows. simpl. rewrite C, L.
  unfold ResultCard.handleLearnClick.
  unfold ResultCard.learnButtonShown in L.
  apply andb_prop in L. destruct L as [L V].
  apply andb_prop in L. destruct L as [_ HL].
  apply negb_true_iff in V. apply negb_true_iff in HL. rewrite V. simpl.
  apply String.eqb_neq in Ne.
  split; [|split].
  - rewrite AppFacts.handleLearn_examples, Im, Ne. reflexivity.
  - unfold App.handleLearn_throws, App.handleLearn_completion, App.handleLearn.
    rewrite Im, Ne. simpl.
    destruct (localStorage_setItem h _ _); reflexivity.
  - destruct (App.handleLearn_throws h now_id now_ts _ _ (app s));
      eexists; (split; [reflexivity|]); simpl; auto.
Qed.

Lemma forallb_skipn {A} (p : A -> bool) (n : nat) (l : list A) :
  forallb p l = true -> forallb p (skipn n l) = true.
Proof.
  revert l. induction n as [|n IH]; intros l H; simpl; [exact H|].
  destruct l as [|x l]; [reflexivity|].
  simpl in H. apply andb_prop in H. apply IH, H.
Qed.

Lemma handleLearn_plausible (h : Host) (now_id now_ts : Z) (dry wet : number)
  (a : App.AppModel) :
  gt wet dry = false ->
  forallb plausible (App.trainingExamples a) = true ->
  forallb plausible
    (App.trainingExamples (App.handleLearn h now_id now_ts dry wet a)) = true.
Proof.
  intros G F. rewrite AppFacts.handleLearn_examples.
  destruct (App.image a) as [img|]; [|exact F].
  destruct (String.eqb img ""); [exact F|].
  unfold App.slice_last. apply forallb_skipn.
  rewrite forallb_app, F. simpl. unfold plausible. simpl. rewrite G.
  reflexivity.
Qed.

Lemma step_plausible (h : Host) (s : Session.Session) (ev : Event) :
  cardUpToDate h s ->
  forallb plausible (App.trainingExamples (app s)) = true ->
  forallb plausible (App.trainingExamples (app (step h s ev))) = true.
Proof.
  intros U F. destruct ev as [base64 o| |f value|now_id now_ts|base64|o]; simpl.
  - destruct (App.appState (app s)); try exact F. simpl.
    unfold App.handleImageSelected, App.handleImageSelected_settle.
    destruct (analyzeHygrometer h o); exact F.
  - destruct (App.appState (app s)); exact F.
  - destruct (card s) as [[init c]|]; exact F.
  - unfold cardUpToDate in U.
    destruct (card s) as [[init c]|]; [|exact F].
    destruct (ResultCard.learnButtonShown c) eqn:L; [|exact F].
    destruct (upToDate_learn h init c U L) as (G & _ & V).
    unfold ResultCard.handleLearnClick. rewrite V. simpl.
    apply handleLearn_plausible; assumption.
  - destruct (App.appState (app s)); exact F.
  - destruct (App.appState (app s)); try exact F. simpl.
    unfold App.handleImageSelected_settle.
    destruct (analyzeHygrometer h o); exact F.
Qed.

(** Nothing the user does puts an exemplar with the wet reading above
    the dry one into the buffer. *)
Theorem exemplars_stay_plausible (h : Host) (s0 : Session.Session)
  (evs : list Event) :
  card s0 = None ->
  forallb plausible (App.trainingExamples (app s0)) = true ->
  forallb plausible (App.trainingExamples (app (run h s0 evs))) = true.
Proof.
  intros C0 F.
  assert (G : cardUpToDate h (run h s0 evs) /\
              forallb plausible (App.trainingExamples (app (run h s0 evs)))
              = true).
  { apply (run_invariant h
             (fun s => cardUpToDate h s /\
                       forallb plausible (App.trainingExamples (app s))
                       = true)).
    - intros s ev [U P]. split.
      + apply step_upToDate, U.
      + apply step_plausible; assumption.
    - split; [|exact F]. unfold cardUpToDate. rewrite C0. exact I. }
  apply G.
Qed.

(** *** The screens *)

Lemma step_screenComplete (h : Host) (s : Session.Session) (ev : Event) :
  screenComplete (app s) -> screenComplete (app (step h s ev)).
Proof.
  intros S. destruct ev as [base64 o| |f value|now_id now_ts|base64|o]; simpl.
  - unfold screenComplete in S.
    destruct (App.appState (app s)) eqn:A;
      try (unfold screenComplete; rewrite A; exact S).
    destruct S as (_ & D & _). simpl.
    unfold screenComplete, App.handleImageSelected,
      App.handleImageSelected_settle.
    destruct (analyzeHygrometer h o) as [result|err]; simpl.
    + repeat split; discriminate.
    + split; [exact D|].
      destruct (String.eqb (message err) "") eqn:M.
      * eexists. split; [reflexivity|]. discriminate.
      * eexists. split; [reflexivity|]. apply String.eqb_neq. exact M.
  - unfold screenComplete in S.
    destruct (App.appState (app s)) eqn:A;
      try (unfold screenComplete; rewrite A; exact S);
      unfold screenComplete; simpl; auto.
  - destruct (card s) as [[init c]|]; exact S.
  - destruct (card s) as [[init c]|]; [|exact S].
    destruct (ResultCard.learnButtonShown c); [|exact S].
    destruct (ResultCard.handleLearnClick c) as [c' [[dry wet]|]];
      [|exact S].
    simpl. unfold App.handleLearn.
    destruct (App.image (app s)) as [img|] eqn:Im; [|exact S].
    destruct (String.eqb img ""); [exact S|].
    unfold screenComplete in *. simpl. rewrite <- Im. exact S.
  - unfold screenComplete in S.
    destruct (App.appState (app s)) eqn:A;
      try (unfold screenComplete; rewrite A; exact S).
    destruct S as (_ & D & _). unfold screenComplete. simpl.
    repeat split; [discriminate | exact D].
  - unfold screenComplete in S.
    destruct (App.appState (app s)) eqn:A;
      try (unfold screenComplete; rewrite A; exact S).
    destruct S as (Im & D & Er). simpl.
    unfold screenComplete, App.handleImageSelected_settle.
    destruct (analyzeHygrometer h o) as [result|err]; simpl.
    + repeat split; [exact Im | discriminate | exact Er].
    + split; [exact D|].
      destruct (String.eqb (message err) "") eqn:M.
      * eexists. split; [reflexivity|]. discriminate.
      * eexists. split; [reflexivity|]. apply String.eqb_neq. exact M.
Qed.

(** Complete screens stay complete: from a state whose screen is
    complete, every screen a session reaches is complete.  The start
    screen holds no image, reading or message; the analysing screen
    holds an image and no reading or message; the result screen holds an
    image and a reading; the error screen holds a message that is not
    empty. *)
Theorem screens_are_complete (h : Host) (s0 : Session.Session)
  (evs : list Event) :
  screenComplete (app s0) -> screenComplete (app (run h s0 evs)).
Proof.
  apply (run_invariant h (fun s => screenComplete (app s))).
  apply step_screenComplete.
Qed.

(** *** The buffer and the stored item *)

(** Selecting an image, an outcome arriving, resetting and editing
    leave the buffer and the stored item as they are: only learning
    changes them. *)
Theorem buffer_changes_by_learning_only (h : Host) (s : Session.Session) :
  let kept (s' : Session.Session) :=
    App.trainingExamples (app s') = App.trainingExamples (app s) /\
    App.stored (app s') = App.stored (app s) in
  (forall base64 o, kept (step h s (SelectImage base64 o))) /\
  kept (step h s Reset) /\
  (forall f value, kept (step h s (Edit f value))) /\
  (forall base64, kept (step h s (Select base64))) /\
  (forall o, kept (step h s (Settle o))).
Proof.
  cbv zeta. repeat split; simpl.
  - destruct (App.appState (app s)); try reflexivity. simpl.
    unfold App.handleImageSelected, App.handleImageSelected_settle.
    destruct (analyzeHygrometer h o); reflexivity.
  - destruct (App.appState (app s)); try reflexivity. simpl.
    unfold App.handleImageSelected, App.handleImageSelected_settle.
    destruct (analyzeHygrometer h o); reflexivity.
  - destruct (App.appState (app s)); reflexivity.
  - destruct (App.appState (app s)); reflexivity.
  - destruct (card s) as [[init c]|]; reflexivity.
  - destruct (card s) as [[init c]|]; reflexivity.
  - destruct (App.appState (app s)); reflexivity.
  - destruct (App.appState (app s)); reflexivity.
  - destruct (App.appState (app s)); try reflexivity. simpl.
    unfold App.handleImageSelected_settle.
    destruct (analyzeHygrometer h o); reflexivity.
  - destruct (App.appState (app s)); try reflexivity. simpl.
    unfold App.handleImageSelected_settle.
    destruct (analyzeHygrometer h o); reflexivity.
Qed.

Lemma step_stored (h : Host) (s : Session.Session) (ev : Event) :
  (App.trainingExamples (app (step h s ev)) = App.trainingExamples (app s) /\
   App.stored (app (step h s ev)) = App.stored (app s)) \/
  (throws h s ev = true /\
   App.stored (app (step h s ev)) = App.stored (app s)) \/
  (throws h s ev = false /\ inSync h (app (step h s ev))).
Proof.
  destruct ev as [base64 o| |f value|now_id now_ts|base64|o]; simpl.
  - left. destruct (App.appState (app s)); auto. simpl.
    unfold App.handleImageSelected, App.handleImageSelected_settle.
    destruct (analyzeHygrometer h o); auto.
  - left. destruct (App.appState (app s)); auto.
  - left. destruct (card s) as [[init c]|]; auto.
  - unfold learnThrows.
    destruct (card s) as [[init c]|]; [|auto].
    destruct (ResultCard.learnButtonShown c); [|auto].
    destruct (ResultCard.handleLearnClick c) as [c' [[dry wet]|]]; [|auto].
    simpl.
    unfold App.handleLearn_throws, App.handleLearn_completion, App.handleLearn.
    destruct (App.image (app s)) as [img|]; [|auto].
    destruct (String.eqb img ""); [auto|].
    unfold inSync. simpl.
    destruct (localStorage_setItem h _ _); auto.
  - left. destruct (App.appState (app s)); auto.
  - left. destruct (App.appState (app s)); auto. simpl.
    unfold App.handleImageSelected_settle.
    destruct (analyzeHygrometer h o); auto.
Qed.

Lemma quiet_inSync (h : Host) (s0 : Session.Session) (evs : list Event) :
  forall s : Session.Session,
    (App.trainingExamples (app s) = App.trainingExamples (app s0) /\
     App.stored (app s) = App.stored (app s0)) \/ inSync h (app s) ->
    quiet h s evs = true ->
    (App.trainingExamples (app (run h s evs))
     = App.trainingExamples (app s0) /\
     App.stored (app (run h s evs)) = App.stored (app s0))
    \/ inSync h (app (run h s evs)).
Proof.
  induction evs as [|ev evs IH]; intros s P Q; [exact P|].
  simpl in Q. apply andb_prop in Q. destruct Q as [T Q].
  apply negb_true_iff in T.
  apply (IH (step h s ev)); [|exact Q].
  destruct (step_stored h s ev) as [[B St] | [[T' _] | [_ Sy]]].
  - destruct P as [[B0 St0] | Sy].
    + left. rewrite B, St. auto.
    + right. unfold inSync in *. rewrite B, St. exact Sy.
  - rewrite T in T'. discriminate T'.
  - right. exact Sy.
Qed.

(** The stored item follows the buffer as long as [setItem] does not
    throw: after a run none of whose learn clicks threw, either the
    buffer and the stored item are still those of the start, or the
    stored item is [JSON.stringify] of the buffer.  A click in which
    [setItem] throws leaves the stored item behind. *)
Theorem stored_item_follows_buffer (h : Host) (s0 : Session.Session)
  (evs : list Event) :
  quiet h s0 evs = true ->
  (App.trainingExamples (app (run h s0 evs)) = App.trainingExamples (app s0)
   /\ App.stored (app (run h s0 evs)) = App.stored (app s0))
  \/ inSync h (app (run h s0 evs)).
Proof.
  apply quiet_inSync. left. auto.
Qed.

End SessionInvariants.

(** ** services/geminiService: what is sent *)

Module RequestFacts.
Import JS Value Types GeminiRequest.
Local Open Scope string_scope.

Lemma dropPrefix_Some (p s rest : string) :
  dropPrefix p s = Some rest -> s = p ++ rest.
Proof.
  revert s. induction p as [|a p IH]; intros s H; simpl in *.
  - injection H as H. exact H.
  - destruct s as [|b s]; [discriminate H|].
    destruct (Ascii.eqb a b) eqn:E; [|discriminate H].
    apply Ascii.eqb_eq in E. subst b. f_equal. apply IH, H.
Qed.

Lemma dropPrefix_None (p s : string) :
  dropPrefix p s = None -> prefix p s = false.
Proof.
  revert s. induction p as [|a p IH]; intros s H; simpl in *.
  - discriminate H.
  - destruct s as [|b s]; [reflexivity|]. simpl.
    destruct (ascii_dec a b) as [E|N]; [|reflexivity].
    subst b. rewrite Ascii.eqb_refl in H. apply IH, H.
Qed.

Lemma firstMatch_cases (ps : list string) (s : string) :
  match firstMatch ps s with
  | Some rest => exists p, In p ps /\ s = p ++ rest
  | None => forall p, In p ps -> prefix p s = false
  end.
Proof.
  induction ps as [|p ps IH]; simpl.
  - intros p [].
  - destruct (dropPrefix p s) as [rest|] eqn:D.
    + exists p. split; [left; reflexivity|]. apply dropPrefix_Some, D.
    + destruct (firstMatch ps s) as [rest|].
      * destruct IH as (q & I & E). exists q. split; [right; exact I|exact E].
      * intros q [E | I]; [subst q; apply dropPrefix_None, D | apply IH, I].
Qed.

(** Stripping removes one of the four data-URL prefixes from the front
    and nothing else: either the text starts with one of them and the
    result is what follows it, or it starts with none and comes back
    unchanged. *)
Theorem stripDataUrlPrefix_cases (s : string) :
  (exists p, In p dataUrlPrefixes /\ s = p ++ stripDataUrlPrefix s) \/
  (stripDataUrlPrefix s = s /\
   forall p, In p dataUrlPrefixes -> prefix p s = false).
Proof.
  unfold stripDataUrlPrefix.
  pose proof (firstMatch_cases dataUrlPrefixes s) as C.
  destruct (firstMatch dataUrlPrefixes s) as [rest|].
  - left. exact C.
  - right. split; [reflexivity | exact C].
Qed.

Lemma last_of_snoc {A} (xs : list A) (x first : A) (rest : list A) :
  (xs ++ [x])%list = first :: rest -> last rest first = x.
Proof.
  destruct xs as [|a xs]; simpl; intros E; injection E as E1 E2; subst.
  - reflexivity.
  - apply last_last.
Qed.

(** Of the exemplars the service is given, only the most recent one is
    sent: the parts are those for that exemplar alone, six in number,
    and three when there is no exemplar. *)
Theorem only_last_exemplar_is_sent (base64Image : string)
  (examples : list TrainingExample) (ex : TrainingExample) :
  parts base64Image (examples ++ [ex])%list = parts base64Image [ex] /\
  List.length (parts base64Image (examples ++ [ex])%list) = 6%nat /\
  List.length (parts base64Image []) = 3%nat.
Proof.
  assert (E : parts base64Image (examples ++ [ex])%list
              = parts base64Image [ex]).
  { unfold parts.
    destruct (examples ++ [ex])%list as [|first rest] eqn:L.
    - destruct examples; discriminate L.
    - rewrite (last_of_snoc _ _ _ _ L). reflexivity. }
  split; [exact E|]. split; [rewrite E|]; reflexivity.
Qed.

End RequestFacts.

(** ** components/ImageUploader and its wiring *)

Module UploadFacts.
Import JS Value Types GeminiService ImageUploader Upload.
Local Open Scope string_scope.

(** A file that is not an image, or is larger than 10485760 bytes, goes
    no further than the uploader: it sets one of its two messages,
    [onImageSelected] is not called, and [App] stays as it is, however
    the read would have ended. *)
Theorem rejected_file_stays_in_uploader (h : Host) (nullMessage : string)
  (oracle : list GeminiRequest.part -> OracleOutcome) (file : File)
  (o : ReadOutcome) (error : option string) (st : App.AppModel) :
  prefix "image/" (type file) = false \/ gt (size file) 10485760 = true ->
  snd (handleFileChange (Some file) o error) = [] /\
  (fst (handleFileChange (Some file) o error) = Some notAnImageMessage \/
   fst (handleFileChange (Some file) o error) = Some tooLargeMessage) /\
  snd (chooseFile h nullMessage oracle (Some file) o error st) = st.
Proof.
  intros R. unfold chooseFile, handleFileChange, processFile.
  change (10 * 1024 * 1024)%float with 10485760%float.
  destruct (prefix "image/" (type file)) eqn:P; simpl.
  - destruct R as [R | R]; [discriminate R|]. rewrite R. simpl. auto.
  - auto.
Qed.

(** When reading an accepted file fails, the reader's [loadend] still
    calls [onImageSelected], with null: [App] ends on its error screen
    with the engine's TypeError message and no image, while the
    uploader's own message is set on a component that is no longer
    shown; the oracle is not consulted. *)
Theorem failed_read_reaches_app (h : Host) (nullMessage : string)
  (oracle : list GeminiRequest.part -> OracleOutcome) (file : File)
  (error : option string) (st : App.AppModel) :
  prefix "image/" (type file) = true -> gt (size file) 10485760 = false ->
  nullMessage <> "" -> nullMessage <> NOT_A_PSYCHROMETER ->
  let r := chooseFile h nullMessage oracle (Some file) Failed error st in
  snd (handleFileChange (Some file) Failed error) = [None] /\
  fst r = Some readErrorMessage /\
  App.appState (snd r) = ERROR /\
  App.errorMsg (snd r) = Some nullMessage /\
  App.image (snd r) = None.
Proof.
  intros P S N1 N2. cbv zeta.
  unfold chooseFile, handleFileChange, processFile.
  change (10 * 1024 * 1024)%float with 10485760%float.
  rewrite P, S. simpl.
  unfold App.handleImageSelected_settle, analyzeHygrometer. simpl.
  apply String.eqb_neq in N1, N2. rewrite N2. simpl. rewrite N1.
  auto.
Qed.

End UploadFacts.

(** ** components/ZoomableImage *)

Module ZoomFacts.
Import JS Invariants ZoomableImage.

Ltac levels H :=
  unfold zoomLevels in H; simpl in H;
  repeat (destruct H as [H | H]; [symmetry in H|]); [..|contradiction].

Ltac distinct H :=
  exfalso; apply (f_equal (fun x => x <? 1.25)) in H; vm_compute in H;
  discriminate H.

Lemma handleZoomIn_wellZoomed (st : ZoomState) :
  wellZoomed st -> wellZoomed (handleZoomIn st).
Proof.
  intros [L P]. unfold wellZoomed, handleZoomIn. simpl.
  levels L; rewrite L; vm_compute; (split; [tauto|]); intros E; distinct E.
Qed.

Lemma handleZoomOut_wellZoomed (st : ZoomState) :
  wellZoomed st -> wellZoomed (handleZoomOut st).
Proof.
  intros [L P]. unfold wellZoomed, handleZoomOut. simpl.
  levels L; rewrite L; vm_compute; (split; [tauto|]); intros E;
    try reflexivity; distinct E.
Qed.

Lemma step_wellZoomed (st : ZoomState) (ev : Event) :
  wellZoomed st -> wellZoomed (step st ev).
Proof.
  intros W. destruct ev as [| |cx cy|cx cy| | |]; simpl.
  - destruct (zoomInDisabled st); [exact W|apply handleZoomIn_wellZoomed, W].
  - destruct (zoomOutDisabled st); [exact W|apply handleZoomOut_wellZoomed, W].
  - unfold handleMouseDown. destruct (gt (scale st) 1); exact W.
  - unfold handleMouseMove.
    destruct (isDragging st && gt (scale st) 1) eqn:D; [|exact W].
    destruct W as [L P]. split; [exact L|]. simpl. intros E.
    apply andb_prop in D. destruct D as [_ D]. rewrite E in D.
    discriminate D.
  - exact W.
  - exact W.
  - split; simpl; [left; reflexivity | reflexivity].
Qed.

Lemma run_wellZoomed (evs : list Event) : wellZoomed (run evs).
Proof.
  unfold run.
  assert (G : forall st, wellZoomed st -> wellZoomed (fold_left step evs st)).
  { induction evs as [|ev evs IH]; intros st W; simpl; [exact W|].
    apply IH, step_wellZoomed, W. }
  apply G. split; simpl; [left; reflexivity | reflexivity].
Qed.

(** Whatever the user does, the scale is one of 1, 1.5, 2, 2.5, 3, 3.5
    and 4. *)
Theorem scale_stays_on_levels (evs : list Event) :
  In (scale (run evs)) zoomLevels.
Proof. apply run_wellZoomed. Qed.

(** Whenever the image is shown in full it is centred: at scale 1 the
    position is the origin, whatever dragging and zooming went
    before. *)
Theorem full_view_is_centred (evs : list Event) :
  scale (run evs) = 1 -> position (run evs) = origin.
Proof. apply run_wellZoomed. Qed.

Lemma full_view_is_centred_witness :
  position (run [ZoomIn; MouseDown 10 10; MouseMove 30 45; ZoomOut]) = origin.
Proof.
  apply (full_view_is_centred [ZoomIn; MouseDown 10 10; MouseMove 30 45;
                               ZoomOut]).
  reflexivity.
Defined.

(** A zoom button is disabled exactly at its end of the range, and
    between the ends zooming in and out undo each other. *)
Theorem zoom_buttons_match_range (evs : list Event) :
  let st := run evs in
  (zoomInDisabled st = true <-> scale st = 4) /\
  (zoomOutDisabled st = true <-> scale st = 1) /\
  (zoomInDisabled st = false ->
   scale (handleZoomOut (handleZoomIn st)) = scale st) /\
  (zoomOutDisabled st = false ->
   scale (handleZoomIn (handleZoomOut st)) = scale st).
Proof.
  cbv zeta. destruct (run_wellZoomed evs) as [L _].
  unfold zoomInDisabled, zoomOutDisabled, handleZoomIn, handleZoomOut.
  simpl.
  levels L; rewrite L; vm_compute; repeat split;
    intros E; try reflexivity; try discriminate E; distinct E.
Qed.

End ZoomFacts.

(** ** From learning to the next request *)

Module TeachingFacts.
Import JS Value Types GeminiService GeminiRequest App.
Local Open Scope string_scope.

Lemma slice_last_snoc {A} (n : nat) (xs : list A) (x : A) :
  slice_last (S n) (xs ++ [x]) = (slice_last n xs ++ [x])%list.
Proof.
  unfold slice_last. rewrite length_app. simpl.
  replace (List.length xs + 1 - S n)%nat with (List.length xs - n)%nat by lia.
  rewrite skipn_app.
  replace (List.length xs - n - List.length xs)%nat with 0%nat by lia.
  reflexivity.
Qed.

(** Learning keeps the order: the buffer after [handleLearn] on a
    selected image is the last two exemplars it held, in their order,
    followed by the new one. *)
Theorem learning_keeps_most_recent (h : Host) (now_id now_ts : Z)
  (dry wet : number) (img : string) (st : AppModel) :
  image st = Some img -> img <> "" ->
  trainingExamples (handleLearn h now_id now_ts dry wet st)
  = (slice_last 2 (trainingExamples st) ++
     [{| id := Z_toString now_id; timestamp := now_ts; imageUrl := img;
         correctedDry := dry; correctedWet := wet |}])%list.
Proof.
  intros Im Ne. rewrite AppFacts.handleLearn_examples, Im.
  apply String.eqb_neq in Ne. rewrite Ne. apply slice_last_snoc.
Qed.

Lemma learning_keeps_most_recent_witness :
  trainingExamples
    (handleLearn Reference.host 1700000000000 1700000000001 20.2 15
       Samples.photoSelected)
  = (slice_last 2 (trainingExamples Samples.photoSelected) ++
     [{| id := Z_toString 1700000000000; timestamp := 1700000000001;
         imageUrl := Samples.photo;
         correctedDry := 20.2; correctedWet := 15 |}])%list.
Proof.
  apply (learning_keeps_most_recent Reference.host 1700000000000
           1700000000001 20.2 15 Samples.photo Samples.photoSelected).
  - reflexivity.
  - discriminate.
Defined.

(** What the user has just corrected is what the next request teaches
    with: after [handleLearn] on a selected image, the parts for any
    next image open with the exemplar block made of that image,
    stripped of its prefix, and of the corrected values printed with one
    decimal. *)
Theorem learned_exemplar_is_sent_next (h : Host) (now_id now_ts : Z)
  (dry wet : number) (img next : string) (st : AppModel) :
  image st = Some img -> img <> "" ->
  parts next (trainingExamples (handleLearn h now_id now_ts dry wet st))
  = [ TextPart exampleIntro;
      InlineData "image/jpeg" (stripDataUrlPrefix img);
      TextPart ("Правильні значення для фото вище: Сухий="
                ++ Format.toFixed1 dry ++ "°C, Вологий="
                ++ Format.toFixed1 wet ++ "°C.");
      TextPart targetIntro;
      InlineData "image/jpeg" (stripDataUrlPrefix next);
      TextPart systemPrompt ].
Proof.
  intros Im Ne. rewrite AppFacts.handleLearn_examples, Im.
  apply String.eqb_neq in Ne. rewrite Ne.
  rewrite slice_last_snoc. unfold parts.
  destruct (slice_last 2 (trainingExamples st) ++ _)%list
    as [|first rest] eqn:L.
  - destruct (slice_last 2 (trainingExamples st)); discriminate L.
  - rewrite (RequestFacts.last_of_snoc _ _ _ _ L). reflexivity.
Qed.

Lemma learned_exemplar_is_sent_next_witness :
  parts Samples.photo
    (trainingExamples
       (handleLearn Reference.host 1700000000000 1700000000001 20.2 15
          Samples.photoSelected))
  = [ TextPart exampleIntro;
      InlineData "image/jpeg" "/9j/4AAQSkZJRg==";
      TextPart "Правильні значення для фото вище: Сухий=20.2°C, Вологий=15.0°C.";
      TextPart targetIntro;
      InlineData "image/jpeg" "/9j/4AAQSkZJRg==";
      TextPart systemPrompt ].
Proof.
  apply (learned_exemplar_is_sent_next Reference.host 1700000000000
           1700000000001 20.2 15 Samples.photo Samples.photo
           Samples.photoSelected).
  - reflexivity.
  - discriminate.
Defined.

End TeachingFacts.

(** ** services/geminiService: when it returns *)

Module ServiceEdges.
Import JS Value Types GeminiService App.
Local Open Scope string_scope.

Lemma analyzeHygrometer_Normal (h : Host) (o : OracleOutcome) (d : jsval) :
  analyzeHygrometer h o = Normal d <->
  exists text flag,
    o = Responded (Some text) /\ text <> "" /\
    JSON_parse h text = Normal d /\
    get d "isPsychrometer" = Normal flag /\ truthy flag = true.
Proof.
  split.
  - unfold analyzeHygrometer, analyzeHygrometer_try.
    destruct o as [e | [text|]]; simpl.
    + destruct (String.eqb (message e) NOT_A_PSYCHROMETER); discriminate.
    + destruct (String.eqb text "") eqn:T; [discriminate|].
      destruct (JSON_parse h text) as [v|e] eqn:P; simpl.
      * destruct (get v "isPsychrometer") as [flag|e] eqn:G; simpl.
        -- destruct (truthy flag) eqn:F; simpl; [|discriminate].
           intros H. injection H as H. subst v.
           exists text, flag. apply String.eqb_neq in T. auto 6.
        -- destruct (String.eqb (message e) NOT_A_PSYCHROMETER); discriminate.
      * destruct (String.eqb (message e) NOT_A_PSYCHROMETER); discriminate.
    + discriminate.
  - intros (text & flag & O & T & P & G & F). subst o.
    unfold analyzeHygrometer, analyzeHygrometer_try.
    apply String.eqb_neq in T. rewrite T, P. simpl. rewrite G. simpl.
    rewrite F. reflexivity.
Qed.

(** The service returns a value, and [App] shows the result screen,
    exactly when the response has a text that is not empty, [JSON.parse]
    reads it, and the [isPsychrometer] property of what it reads is
    truthy; the value is then what [JSON.parse] returned, unchanged.
    Everything else ends on the error screen. *)
Theorem result_screen_iff (h : Host) (o : OracleOutcome) (base64 : string)
  (st : AppModel) :
  (forall d,
     analyzeHygrometer h o = Normal d <->
     exists text flag,
       o = Responded (Some text) /\ text <> "" /\
       JSON_parse h text = Normal d /\
       get d "isPsychrometer" = Normal flag /\ truthy flag = true) /\
  (appState (handleImageSelected h base64 o st) = SUCCESS <->
   exists d, analyzeHygrometer h o = Normal d) /\
  (appState (handleImageSelected h base64 o st) = ERROR <->
   exists e, analyzeHygrometer h o = Throw e).
Proof.
  split; [intros d; apply analyzeHygrometer_Normal|].
  unfold handleImageSelected, handleImageSelected_settle.
  destruct (analyzeHygrometer h o) as [d|e]; simpl; split; split;
    intros H; try discriminate H; eauto;
    destruct H as [x H]; discriminate H.
Qed.

End ServiceEdges.

(** ** [parseFloat] after [toFixed] *)

Module FormatFacts.
Import JS Value Binary64 NumberFacts Format RefHost.
Local Open Scope string_scope.
Local Open Scope Z_scope.

Lemma is_digit_cases (c : ascii) :
  is_digit c = true ->
  In c ["0"; "1"; "2"; "3"; "4"; "5"; "6"; "7"; "8"; "9"]%char.
Proof.
  destruct c as [[] [] [] [] [] [] [] []]; intros H;
    try discriminate H; simpl; tauto.
Qed.

Lemma digit_not_space (c : ascii) : is_digit c = true -> is_space c = false.
Proof.
  intros H. apply is_digit_cases in H. simpl in H.
  repeat (destruct H as [H | H]; [subst c; reflexivity|]). contradiction.
Qed.

(** [scan_digits] reads a run of digits to its end. *)
Lemma scan_digits_all (s rest : string) :
  all_digits s = true ->
  match rest with
  | String c _ => is_digit c = false
  | EmptyString => True
  end ->
  forall acc count,
    scan_digits (s ++ rest) acc count
    = (digits_value acc s, count + Z.of_nat (String.length s), rest).
Proof.
  intros A R. induction s as [|c s IH]; intros acc count.
  - simpl. rewrite Z.add_0_r.
    destruct rest as [|c r]; [reflexivity|]. simpl. rewrite R. reflexivity.
  - simpl in A. apply andb_prop in A. destruct A as [Dc A].
    change ((String c s) ++ rest) with (String c (s ++ rest)).
    cbn [scan_digits digits_value]. rewrite Dc, (IH A).
    f_equal. f_equal. cbn [String.length]. lia.
Qed.

Lemma digits_value_snoc (s : string) (c : ascii) (acc : Z) :
  digits_value acc (s ++ String c "") = 10 * digits_value acc s + digit_val c.
Proof.
  revert acc. induction s as [|d s IH]; intros acc; simpl; [reflexivity|].
  apply IH.
Qed.

Lemma all_digits_snoc (s : string) (c : ascii) :
  all_digits (s ++ String c "") = true ->
  all_digits s = true /\ is_digit c = true.
Proof.
  induction s as [|d s IH]; simpl; intros H.
  - rewrite andb_true_r in H. auto.
  - apply andb_prop in H. destruct H as [D H].
    destruct (IH H) as [A C]. rewrite D, A. auto.
Qed.

(** The digits [string_of_uint] writes, and their value. *)
Lemma uint_digits (u : Decimal.uint) :
  all_digits (NilEmpty.string_of_uint u) = true.
Proof.
  induction u; simpl; auto.
Qed.

Lemma uint_value_acc (u : Decimal.uint) (acc : positive) :
  digits_value (Zpos acc) (NilEmpty.string_of_uint u)
  = Zpos (Pos.of_uint_acc u acc).
Proof.
  revert acc.
  induction u; intros acc;
    cbn [NilEmpty.string_of_uint digits_value Pos.of_uint_acc];
    try reflexivity; rewrite <- IHu; f_equal.
  all: unfold digit_val; simpl Z.of_nat; lia.
Qed.

Lemma uint_value (u : Decimal.uint) :
  digits_value 0 (NilEmpty.string_of_uint u) = Z.of_N (Pos.of_uint u).
Proof.
  induction u; simpl; try reflexivity; try exact IHu;
    apply uint_value_acc.
Qed.

Lemma nilzero_digits (u : Decimal.uint) :
  all_digits (NilZero.string_of_uint u) = true /\
  digits_value 0 (NilZero.string_of_uint u) = Z.of_N (Pos.of_uint u) /\
  NilZero.string_of_uint u <> "".
Proof.
  destruct u.
  1: (split; [reflexivity | split; [reflexivity | discriminate]]).
  all: split; [apply (uint_digits (_ u)) | split].
  all: try (apply (uint_value (_ u))).
  all: simpl; discriminate.
Qed.

Lemma decimal_digits_spec (n : Z) :
  0 <= n ->
  all_digits (decimal_digits n) = true /\
  digits_value 0 (decimal_digits n) = n /\
  decimal_digits n <> "".
Proof.
  intros H. unfold decimal_digits.
  destruct (nilzero_digits (N.to_uint (Z.to_N n))) as (A & V & Ne).
  split; [exact A|]. split; [|exact Ne].
  rewrite V.
  change (Pos.of_uint (N.to_uint (Z.to_N n)))
    with (N.of_uint (N.to_uint (Z.to_N n))).
  rewrite DecimalN.Unsigned.of_to. apply Z2N.id, H.
Qed.

(** A string that is not empty splits before its last character, as
    [toFixed] splits its digits. *)
Lemma last_character (s : string) :
  s <> "" -> exists a c, s = a ++ String c "".
Proof.
  induction s as [|d s IH]; intros N; [contradiction|].
  destruct s as [|d' s'].
  - exists "", d. reflexivity.
  - destruct IH as (a & c & E); [discriminate|].
    exists (String d a), c. simpl. rewrite <- E. reflexivity.
Qed.

Lemma length_snoc (a : string) (c : ascii) :
  (String.length (a ++ String c "") - 1)%nat = String.length a.
Proof.
  assert (L : String.length (a ++ String c "") = S (String.length a)).
  { induction a as [|d a IH]; simpl; [reflexivity|]. rewrite IH. reflexivity. }
  rewrite L. lia.
Qed.

Lemma substring_front (a r : string) :
  substring 0 (String.length a) (a ++ r) = a.
Proof.
  induction a as [|d a IH]; simpl.
  - destruct r; reflexivity.
  - rewrite IH. reflexivity.
Qed.

Lemma substring_back (a : string) (c : ascii) :
  substring (String.length a) 1 (a ++ String c "") = String c "".
Proof.
  induction a as [|d a IH]; simpl; [reflexivity | exact IH].
Qed.

Lemma split_last (s : string) :
  s <> "" ->
  exists a c,
    s = a ++ String c "" /\
    substring 0 (String.length s - 1) s = a /\
    substring (String.length s - 1) 1 s = String c "".
Proof.
  intros N. destruct (last_character s N) as (a & c & E).
  exists a, c. split; [exact E|]. subst s. rewrite length_snoc.
  split; [apply substring_front | apply substring_back].
Qed.

(** [parseFloat] on a sign, digits, a point and a digit. *)
Lemma parseFloat_fixed (neg : bool) (a : string) (c : ascii) :
  all_digits a = true -> is_digit c = true ->
  parseFloat ((if neg then "-" else "") ++ a ++ "." ++ String c "")
  = of_decimal neg (digits_value 0 (a ++ String c "")) (-1).
Proof.
  intros A C.
  assert (D : scan_decimal (a ++ "." ++ String c "")
              = Some (digits_value 0 (a ++ String c ""), -1,
                      0 + Z.of_nat (String.length a), 0 + 1, "")).
  { unfold scan_decimal.
    rewrite (scan_digits_all a ("." ++ String c "") A) by reflexivity.
    change ("." ++ String c "") with (String "." (String c "")).
    cbn iota beta.
    cbn [scan_digits]. rewrite C. cbn iota beta.
    replace (0 + Z.of_nat (String.length a) + (0 + 1) =? 0) with false
      by (symmetry; apply Z.eqb_neq; lia).
    rewrite digits_value_snoc. reflexivity. }
  assert (F : forall r : string,
            r = a ++ "." ++ String c "" ->
            skip is_space r = r /\ scan_sign r = (false, r) /\
            prefix "Infinity" r = false).
  { intros r E. destruct a as [|d a'].
    - subst r. simpl. auto.
    - simpl in A. apply andb_prop in A. destruct A as [Dd _].
      subst r. apply is_digit_cases in Dd. simpl in Dd.
      repeat (destruct Dd as [Dd | Dd]; [subst d; simpl; auto|]).
      contradiction. }
  destruct (F _ eq_refl) as (Sk & Sg & Pf).
  unfold parseFloat. destruct neg.
  - change ("-" ++ a ++ "." ++ String c "")
      with (String "-" (a ++ "." ++ String c "")).
    cbn [skip]. change (is_space "-") with false. cbn iota.
    cbn [scan_sign]. rewrite Pf, D. reflexivity.
  - change ("" ++ a ++ "." ++ String c "") with (a ++ "." ++ String c "").
    rewrite Sk, Sg, Pf, D. reflexivity.
Qed.

Lemma of_decimal_tenths (neg : bool) (n : Z) :
  of_decimal neg n (-1) = of_tenths neg n.
Proof.
  destruct n; reflexivity.
Qed.

Lemma tenths_nonneg (m : positive) (e : Z) : 0 <= tenths m e.
Proof.
  unfold tenths. destruct e as [|p|p].
  - lia.
  - assert (0 < 2 ^ Zpos p) by (apply Z.pow_pos_nonneg; lia). nia.
  - apply Z.div_pos.
    + assert (0 < 2 ^ Zpos p) by (apply Z.pow_pos_nonneg; lia). lia.
    + apply Z.pow_pos_nonneg; lia.
Qed.

(** Reading back what [toFixed(1)] prints is the rounding the
    calculator is modelled with: for a number that is not finite or is
    below 1e21 in magnitude, [parseFloat(x.toFixed(1))] is
    [toFixed1_parseFloat x]. *)
Theorem parseFloat_toFixed1 (x : number) :
  is_finite x = false \/ PrimFloat.leb 1e21 (abs x) = false ->
  parseFloat (toFixed1 x) = toFixed1_parseFloat x.
Proof.
  intros H. unfold toFixed1, toFixed1_parseFloat.
  destruct (Prim2SF x) as [s|s| |s m e] eqn:E.
  - reflexivity.
  - assert (X : x = if s then neg_infinity else infinity).
    { apply Prim2SF_inj. rewrite E. destruct s; reflexivity. }
    rewrite X. destruct s; reflexivity.
  - assert (X : x = nan).
    { apply Prim2SF_inj. rewrite E. reflexivity. }
    rewrite X. reflexivity.
  - assert (L : PrimFloat.leb 1e21 (abs x) = false).
    { destruct H as [H | H]; [|exact H].
      destruct (not_finite_SF x H) as [N | [s' N]]; rewrite N in E;
        discriminate E. }
    rewrite L.
    pose proof (tenths_nonneg m e) as T0.
    set (n := tenths m e) in *.
    pose proof (decimal_digits_spec n T0) as (A & V & Ne).
    set (ds := if n <? 10 then "0" ++ decimal_digits n else decimal_digits n).
    assert (P : all_digits ds = true /\ digits_value 0 ds = n /\ ds <> "").
    { unfold ds. destruct (n <? 10).
      - split; [|split].
        + simpl. exact A.
        + simpl. exact V.
        + discriminate.
      - auto. }
    destruct P as (Ad & Vd & Nd).
    destruct (split_last ds Nd) as (a & c & Es & Sa & Sc).
    rewrite Sa, Sc.
    rewrite Es in Ad. destruct (all_digits_snoc a c Ad) as [Aa Cc].
    rewrite (parseFloat_fixed s a c Aa Cc), <- Es, Vd.
    apply of_decimal_tenths.
Qed.

Lemma parseFloat_toFixed1_witness :
  parseFloat (toFixed1 55.74%float) = toFixed1_parseFloat 55.74%float.
Proof.
  apply (parseFloat_toFixed1 55.74%float). right. reflexivity.
Defined.

End FormatFacts.

(** ** The saturation pressure on the scale *)

Module ScaleFacts.
Import JS Notions Binary64 Psychrometry Accuracy.














End ScaleFacts.

(** ** Runs on the reference host *)

Module Runs.
Import JS Value Types GeminiService Notions Samples Invariants Cases.
Local Open Scope string_scope.

(** After the wet reading is corrected to 15.2 the card shows the
    humidity and the dew point of 20 and 15.2. *)
Lemma display_follows_readings_witness :
  exists init c,
    Session.card (Session.run Reference.host fresh correction)
    = Some (init, c) /\
    ResultCard.validationError c = None /\
    ResultCard.shownHumidity c
    = Some (Psychrometry.calculateHumidity Reference.host
              (dryTemp (ResultCard.readings c))
              (wetTemp (ResultCard.readings c))) /\
    ResultCard.shownDewPoint c
    = Some (toFixed1_parseFloat
              (Psychrometry.calculateDewPoint Reference.host
                 (dryTemp (ResultCard.readings c))
                 (Psychrometry.calculateHumidity Reference.host
                    (dryTemp (ResultCard.readings c))
                    (wetTemp (ResultCard.readings c))))).
Proof.
  eexists. eexists.
  assert (C : Session.card (Session.run Reference.host fresh correction)
              = Some (_, _)) by (vm_compute; reflexivity).
  split; [exact C|].
  apply (SessionInvariants.display_follows_readings Reference.host fresh
           correction _ _ eq_refl C).
  vm_compute. reflexivity.
Defined.

(** The figure shown after that correction. *)
Lemma shown_humidity_has_one_decimal_witness :
  exists rh,
    option_map ResultCard.shownHumidity
      (option_map snd
         (Session.card (Session.run Reference.host fresh correction)))
    = Some (Some rh) /\
    (rh = nan \/
     exists k : Z, (0 <= k <= 1000)%Z /\ rh = of_tenths false k).
Proof.
  eexists.
  assert (C : Session.card (Session.run Reference.host fresh correction)
              = Some (_, _)) by (vm_compute; reflexivity).
  split.
  - rewrite C. simpl. vm_compute. reflexivity.
  - apply (SessionInvariants.shown_humidity_has_one_decimal Reference.host
             fresh correction _ _ _ eq_refl C).
    vm_compute. reflexivity.
Defined.

(** After that correction the learn button is on screen, and the wet
    reading differs from the initial one. *)
Lemma learn_offered_for_corrections_witness :
  exists init c,
    Session.card (Session.run Reference.host fresh correction)
    = Some (init, c) /\
    gt (wetTemp (ResultCard.readings c)) (dryTemp (ResultCard.readings c))
    = false /\
    hasChanged init (ResultCard.readings c) = true.
Proof.
  eexists. eexists.
  assert (C : Session.card (Session.run Reference.host fresh correction)
              = Some (_, _)) by (vm_compute; reflexivity).
  split; [exact C|].
  destruct (SessionInvariants.learn_offered_for_corrections Reference.host
              fresh correction _ _ eq_refl C) as [L _].
  apply L. vm_compute. reflexivity.
Defined.

(** A click on the learn button after that correction stores the
    photograph with 20 and 15.2. *)
Lemma learn_stores_card_readings_witness :
  exists init c img,
    Session.card (Session.run Reference.host fresh correction)
    = Some (init, c) /\
    App.image (Session.app (Session.run Reference.host fresh correction))
    = Some img /\
    App.trainingExamples
      (Session.app
         (Session.step Reference.host
            (Session.run Reference.host fresh correction)
            (Session.LearnClick 1700000000000 1700000000001)))
    = App.slice_last 3
        (App.trainingExamples
           (Session.app (Session.run Reference.host fresh correction)) ++
         [{| id := App.Z_toString 1700000000000;
             timestamp := 1700000000001;
             imageUrl := img;
             correctedDry := dryTemp (ResultCard.readings c);
             correctedWet := wetTemp (ResultCard.readings c) |}])%list.
Proof.
  eexists. eexists.
  assert (C : Session.card (Session.run Reference.host fresh correction)
              = Some (_, _)) by (vm_compute; reflexivity).
  destruct (SessionInvariants.learn_stores_card_readings Reference.host
              fresh correction _ _ 1700000000000%Z 1700000000001%Z
              eq_refl C) as (img & Im & T & _).
  - vm_compute. reflexivity.
  - exists img. split; [exact C|]. split; [exact Im | exact T].
Defined.

(** The buffer after that correction has been learned. *)
Lemma exemplars_stay_plausible_witness :
  forallb plausible
    (App.trainingExamples
       (Session.app
          (Session.run Reference.host fresh
             (correction ++
              [Session.LearnClick 1700000000000 1700000000001])%list)))
  = true.
Proof.
  apply (SessionInvariants.exemplars_stay_plausible Reference.host fresh
           (correction ++
            [Session.LearnClick 1700000000000 1700000000001])%list);
    reflexivity.
Defined.

(** A PDF stays in the uploader. *)
Lemma rejected_file_stays_in_uploader_witness :
  snd (ImageUploader.handleFileChange (Some document)
         (ImageUploader.Loaded photo) None) = [] /\
  snd (Upload.chooseFile Reference.host nullMessageV8 oracle (Some document)
         (ImageUploader.Loaded photo) None App.initial)
  = App.initial.
Proof.
  destruct (UploadFacts.rejected_file_stays_in_uploader Reference.host
              nullMessageV8 oracle document (ImageUploader.Loaded photo)
              None App.initial) as (A & _ & B).
  - left. reflexivity.
  - split; [exact A | exact B].
Defined.

(** A photograph whose read fails. *)
Lemma failed_read_reaches_app_witness :
  let r := Upload.chooseFile Reference.host nullMessageV8 oracle
             (Some snapshot) ImageUploader.Failed None App.initial in
  fst r = Some ImageUploader.readErrorMessage /\
  App.appState (snd r) = ERROR /\
  App.errorMsg (snd r) = Some nullMessageV8.
Proof.
  cbv zeta.
  destruct (UploadFacts.failed_read_reaches_app Reference.host
              nullMessageV8 oracle snapshot None App.initial)
    as (_ & A & B & C & _).
  - reflexivity.
  - reflexivity.
  - discriminate.
  - discriminate.
  - auto.
Defined.

(** A second click after the correction has been learned, and a click
    on a host whose storage is too small for the photograph. *)
Lemma learn_click_once_witness :
  Session.step Reference.host
    (Session.step Reference.host
       (Session.run Reference.host fresh correction)
       (Session.LearnClick 1700000000000 1700000000001))
    (Session.LearnClick 1700000000002 1700000000003)
  = Session.step Reference.host
      (Session.run Reference.host fresh correction)
      (Session.LearnClick 1700000000000 1700000000001) /\
  Session.card
    (Session.step Reference.crampedHost
       (Session.run Reference.crampedHost fresh correction)
       (Session.LearnClick 1700000000000 1700000000001))
  = Session.card (Session.run Reference.crampedHost fresh correction).
Proof.
  split.
  - apply (SessionInvariants.learn_click_once Reference.host
             (Session.run Reference.host fresh correction)
             1700000000000 1700000000001 1700000000002 1700000000003).
    vm_compute. reflexivity.
  - apply (SessionInvariants.learn_click_once Reference.crampedHost
             (Session.run Reference.crampedHost fresh correction)
             1700000000000 1700000000001 1700000000002 1700000000003).
    vm_compute. reflexivity.
Defined.

(** The analysing screen while the request is pending. *)
Lemma screens_are_complete_witness :
  screenComplete
    (Session.app
       (Session.run Reference.host fresh [Session.Select photo])).
Proof.
  apply (SessionInvariants.screens_are_complete Reference.host fresh
           [Session.Select photo]).
  unfold screenComplete. simpl. auto.
Defined.

(** The stored item after the correction has been learned. *)
Lemma stored_item_follows_buffer_witness :
  inSync Reference.host
    (Session.app
       (Session.run Reference.host fresh
          (correction ++
           [Session.LearnClick 1700000000000 1700000000001])%list)).
Proof.
  destruct (SessionInvariants.stored_item_follows_buffer Reference.host fresh
              (correction ++
               [Session.LearnClick 1700000000000 1700000000001])%list)
    as [[B _] | Sy].
  - vm_compute. reflexivity.
  - vm_compute in B. discriminate B.
  - exact Sy.
Defined.

End Runs.
